(** * Homebridge plugin host: [PlatformAccessory] and [Plugin]

    A shallow embedding of [src/platformAccessory.ts] and [src/plugin.ts].

    - JavaScript objects that are used as maps (the serialized accessory
      record, [engines], [dependencies], the [exports] table, the [Map]
      registries) are [gmap string _];
    - [undefined] is written out: an optional field is an [option], a
      dynamically typed slot is a [JValue];
    - exceptions are the [Throw] branch of [Completion];
    - the static field [PlatformAccessory.injectedAccessory] and the
      mutable fields of a [Plugin] are threaded explicitly;
    - everything that lives in hap-nodejs, semver or the Node runtime is
      taken as a parameter ([HapLib], [Host]). *)

From Stdlib Require Import ZArith Ascii String List Bool Lia.
From stdpp Require Import base option gmap strings list fin_maps.

Set Warnings "-register-all".

Local Open Scope Z_scope.
Local Open Scope string_scope.

(* ===================================================================== *)
(** ** JavaScript values, truthiness and completions                      *)
(* ===================================================================== *)

Module JS.

(** Values that travel through untyped positions (parsed JSON). *)
Inductive JValue : Type :=
  | JUndefined
  | JNull
  | JBool (b : bool)
  | JNum (n : Z)
  | JStr (s : string)
  | JArr (items : list JValue)
  | JObj (fields : list (string * JValue)).

(** [!!v]: everything is truthy except [undefined], [null], [false],
    [0] and the empty string. *)
Definition truthy (v : JValue) : bool :=
  match v with
  | JUndefined | JNull => false
  | JBool b => b
  | JNum n => negb (n =? 0)%Z
  | JStr s => negb (String.eqb s "")
  | JArr _ | JObj _ => true
  end.

(** Truthiness of a [string | undefined]. *)
Definition truthyStr (o : option string) : bool :=
  match o with
  | Some s => negb (String.eqb s "")
  | None => false
  end.

(** [a || b] on [string | undefined]. *)
Definition orStr (a b : option string) : option string :=
  if truthyStr a then a else b.

(** [obj.key] on a parsed record: a missing key reads as [undefined]. *)
Definition prop (obj : gmap string JValue) (key : string) : JValue :=
  default JUndefined (obj !! key).

(** [table && table[key]] on an optional table of strings. *)
Definition field (table : option (gmap string string)) (key : string) : option string :=
  match table with
  | Some t => t !! key
  | None => None
  end.

(** [{ ...under, ...over }]: later spreads win on a shared key. *)
Definition spread (under over : gmap string JValue) : gmap string JValue :=
  over ∪ under.

Inductive Exn : Type :=
  | Error (message : string)            (* [throw new Error(message)] *)
  | TypeError (message : string)        (* raised by the runtime *)
  | AssertionError (message : string)   (* [assert(cond, message)] *)
  | Foreign (v : JValue).               (* raised by code outside this package *)

Inductive Completion (A : Type) : Type :=
  | Return (a : A)
  | Throw (e : Exn).
Arguments Return {A} a.
Arguments Throw {A} e.

(** [s.endsWith(suffix)] *)
Definition endsWith (s suffix : string) : bool :=
  let n := String.length s in
  let k := String.length suffix in
  (k <=? n)%nat && String.eqb (substring (n - k) k s) suffix.

End JS.
Import JS.

(* ===================================================================== *)
(** ** The hap-nodejs delegate                                            *)
(* ===================================================================== *)

Module Accessory.

(** A listener the delegate holds for its own [IDENTIFY] event.  The
    closure installed by the [PlatformAccessory] constructor captures
    the wrapping handle; it is represented by [HandleForwarder]. *)
Inductive IdentifyListener : Type :=
  | HandleForwarder
  | ExternalListener (id : nat).

(** The fields of a hap-nodejs [Accessory] that [platformAccessory.ts]
    reads or writes. *)
Record t : Type := mk {
  displayName : string;
  UUID : string;
  category : Z;
  services : list JValue;
  identifyListeners : list IdentifyListener;
}.

Definition setDisplayName (name : string) (a : t) : t :=
  mk name (UUID a) (category a) (services a) (identifyListeners a).

Definition setCategory (c : Z) (a : t) : t :=
  mk (displayName a) (UUID a) c (services a) (identifyListeners a).

(** [accessory.on(AccessoryEventTypes.IDENTIFY, listener)] *)
Definition onIdentify (l : IdentifyListener) (a : t) : t :=
  mk (displayName a) (UUID a) (category a) (services a)
     (identifyListeners a ++ [l])%list.

End Accessory.

(** What is imported from hap-nodejs: the [Accessory] constructor, the
    static [Accessory.serialize] / [Accessory.deserialize], and the
    constant [Categories.OTHER]. *)
Record HapLib : Type := {
  Accessory_new : string -> string -> Completion Accessory.t;
  Accessory_serialize : Accessory.t -> gmap string JValue;
  Accessory_deserialize : gmap string JValue -> Completion Accessory.t;
  Categories_OTHER : Z;
}.

(** The keys [PlatformAccessory.serialize] writes itself. *)
Definition ownKeys : list string := ["plugin"; "platform"; "context"].

(* ===================================================================== *)
(** ** platformAccessory.ts                                               *)
(* ===================================================================== *)

Module PlatformAccessory.

(** *** The handle's own [EventEmitter] *)

(** A completion callback handed over by the delegate, or the literal
    [() => {}] the forwarder passes on. *)
Inductive Callback : Type :=
  | CompletionCallback (id : nat)
  | EmptyCallback.

Inductive Arg : Type :=
  | ABool (b : bool)
  | AFun (f : Callback).

(** A listener attached with [on("identify", listener)].  Plugin code is
    opaque; all that matters here is whether a call returns or raises. *)
Record Listener : Type := mkListener {
  listenerId : nat;
  raises : option Exn;
}.

(** What an observer sees, in order. *)
Inductive Action : Type :=
  | Emit (event : string) (args : list Arg)
  | Invoke (listener : nat) (args : list Arg)
  | Call (f : Callback).

(** [EventEmitter.prototype.emit]: listeners run synchronously in
    registration order; the first one that raises ends the emission and
    the exception reaches the caller of [emit]. *)
Fixpoint deliver (ls : list Listener) (args : list Arg)
  : list Action * Completion unit :=
  match ls with
  | [] => ([], Return tt)
  | l :: rest =>
      match raises l with
      | Some e => ([Invoke (listenerId l) args], Throw e)
      | None =>
          let '(tr, c) := deliver rest args in
          (Invoke (listenerId l) args :: tr, c)
      end
  end.

Definition emit (ls : list Listener) (event : string) (args : list Arg)
  : list Action * Completion bool :=
  let '(tr, c) := deliver ls args in
  (Emit event args :: tr,
   match c with
   | Return _ => Return (negb (Nat.eqb (List.length ls) 0))
   | Throw e => Throw e
   end).

(** *** The class *)

Definition IDENTIFY : string := "identify".

Record t : Type := mk {
  _associatedPlugin : JValue;          (* [PluginIdentifier | undefined] *)
  _associatedPlatform : JValue;        (* [PlatformName | undefined] *)
  _associatedHAPAccessory : Accessory.t;
  displayName : string;
  UUID : string;
  category : JValue;
  reachable : bool;
  context : JValue;
  listeners : list Listener;           (* [on("identify", ...)] *)
}.

(** [this.services = this._associatedHAPAccessory.services]: the handle
    holds the delegate's array itself, not a copy. *)
Definition services (h : t) : list JValue :=
  Accessory.services (_associatedHAPAccessory h).

(** The static field [PlatformAccessory.injectedAccessory]. *)
Definition Slot : Type := option Accessory.t.

(** [category?: Categories] is truthy when given and non-zero. *)
Definition truthyCategory (c : option Z) : bool :=
  match c with
  | Some n => negb (n =? 0)%Z
  | None => false
  end.

(** [new PlatformAccessory(displayName, uuid, category?)] *)
Definition constructor (hap : HapLib) (injectedAccessory : Slot)
    (displayName uuid : string) (category : option Z) : Completion t :=
  match
    match injectedAccessory with
    | Some injected => Return injected
    | None => Accessory_new hap displayName uuid
    end
  with
  | Throw e => Throw e
  | Return a0 =>
      let a1 :=
        match category with
        | Some c => if truthyCategory category then Accessory.setCategory c a0 else a0
        | None => a0
        end in
      let a2 := Accessory.onIdentify Accessory.HandleForwarder a1 in
      Return {|
        _associatedPlugin := JUndefined;
        _associatedPlatform := JUndefined;
        _associatedHAPAccessory := a2;
        displayName := Accessory.displayName a1;
        UUID := Accessory.UUID a1;
        category :=
          JNum (match category with
                | Some c => if truthyCategory category then c else Categories_OTHER hap
                | None => Categories_OTHER hap
                end);
        reachable := false;
        context := JObj [];
        listeners := [];
      |}
  end.

(** The closure registered on the delegate:
    [(paired, callback) => { this.emit(IDENTIFY, paired, () => {}); callback(); }] *)
Definition identifyForwarder (h : t) (paired : bool) (callback : Callback)
  : list Action * Completion unit :=
  let '(tr, c) := emit (listeners h) IDENTIFY [ABool paired; AFun EmptyCallback] in
  match c with
  | Throw e => (tr, Throw e)
  | Return _ => ((tr ++ [Call callback])%list, Return tt)
  end.

(** [on("identify", listener)] *)
Definition on (l : Listener) (h : t) : t :=
  mk (_associatedPlugin h) (_associatedPlatform h) (_associatedHAPAccessory h)
     (displayName h) (UUID h) (category h) (reachable h) (context h)
     (listeners h ++ [l])%list.

Definition withDelegate (a : Accessory.t) (h : t) : t :=
  mk (_associatedPlugin h) (_associatedPlatform h) a
     (displayName h) (UUID h) (category h) (reachable h) (context h)
     (listeners h).

Definition updateDisplayName (name : string) (h : t) : t :=
  if negb (String.eqb name "") then
    mk (_associatedPlugin h) (_associatedPlatform h)
       (Accessory.setDisplayName name (_associatedHAPAccessory h))
       name (UUID h) (category h) (reachable h) (context h) (listeners h)
  else h.

Definition updateReachability (r : bool) (h : t) : t :=
  mk (_associatedPlugin h) (_associatedPlatform h) (_associatedHAPAccessory h)
     (displayName h) (UUID h) (category h) r (context h) (listeners h).

(** [static serialize(accessory)].  The first statement writes into the
    delegate, so the handle comes back too. *)
Definition serialize (hap : HapLib) (accessory : t)
  : gmap string JValue * t :=
  let delegate :=
    Accessory.setDisplayName (displayName accessory)
                             (_associatedHAPAccessory accessory) in
  let own : gmap string JValue :=
    {[ "plugin" := _associatedPlugin accessory;
       "platform" := _associatedPlatform accessory;
       "context" := context accessory ]} in
  (spread own (Accessory_serialize hap delegate),
   withDelegate delegate accessory).

(** [static deserialize(json)], with the three writes to the static slot
    spelled out. *)
Definition deserialize (hap : HapLib) (slot : Slot) (json : gmap string JValue)
  : Completion t * Slot :=
  match Accessory_deserialize hap json with
  | Throw e => (Throw e, slot)
  | Return accessory =>
      let occupied : Slot := Some accessory in
      match constructor hap occupied (Accessory.displayName accessory)
                        (Accessory.UUID accessory) None with
      | Throw e => (Throw e, occupied)
      | Return platformAccessory =>
          let cleared : Slot := None in
          (Return {|
             _associatedPlugin := prop json "plugin";
             _associatedPlatform := prop json "platform";
             _associatedHAPAccessory := _associatedHAPAccessory platformAccessory;
             displayName := displayName platformAccessory;
             UUID := UUID platformAccessory;
             category := prop json "category";
             reachable := reachable platformAccessory;
             context := prop json "context";
             listeners := listeners platformAccessory;
           |}, cleared)
      end
  end.

End PlatformAccessory.

(** The assumption under which the round trip of a handle [h] is
    stated.  It is about the delegate of [h] alone, as [serialize] encodes
    it: the delegate library stores the category under [category], writes
    none of the wrapper's keys, and decodes the record [serialize] built
    to a delegate with the name, UUID and category of the one encoded. *)
Record RoundTripsAt (hap : HapLib) (h : PlatformAccessory.t) : Prop := {
  encoded_category :
    Accessory_serialize hap
      (PlatformAccessory._associatedHAPAccessory (PlatformAccessory.serialize hap h).2)
      !! "category"
    = Some (JNum (Accessory.category
                    (PlatformAccessory._associatedHAPAccessory
                       (PlatformAccessory.serialize hap h).2)));
  encoded_keys :
    forall k, In k ownKeys ->
      Accessory_serialize hap
        (PlatformAccessory._associatedHAPAccessory (PlatformAccessory.serialize hap h).2)
        !! k = None;
  decoded_identity :
    exists a',
      Accessory_deserialize hap (PlatformAccessory.serialize hap h).1 = Return a'
      /\ Accessory.displayName a'
         = Accessory.displayName
             (PlatformAccessory._associatedHAPAccessory (PlatformAccessory.serialize hap h).2)
      /\ Accessory.UUID a'
         = Accessory.UUID
             (PlatformAccessory._associatedHAPAccessory (PlatformAccessory.serialize hap h).2)
      /\ Accessory.category a'
         = Accessory.category
             (PlatformAccessory._associatedHAPAccessory (PlatformAccessory.serialize hap h).2);
}.

(* ===================================================================== *)
(** ** plugin.ts                                                          *)
(* ===================================================================== *)

(** Modelled from the spec: the [PackageJSON] interface is declared in
    [pluginManager.ts], which is not among the sources.  The fields are
    the manifest fields the constructor reads (section 6 of the spec:
    version, main, exports (string | table), type, engines, dependencies,
    peerDependencies); an [exports] table maps a condition or subpath to a
    path or to a nested table of paths (section 4.1). *)
Module PackageJSON.

Inductive ExportTarget : Type :=
  | Path (p : string)
  | Conditions (c : gmap string string).

Inductive Exports : Type :=
  | ExportsPath (p : string)
  | ExportsTable (entries : gmap string ExportTarget).

Record t : Type := mk {
  version : option string;
  exports : option Exports;
  main : option string;
  type : option string;
  engines : option (gmap string string);
  dependencies : option (gmap string string);
  peerDependencies : option (gmap string string);
}.

End PackageJSON.

Module Plugin.

Import PackageJSON.

(** *** Opaque references handed around by the host *)

Inductive AccessoryPluginConstructor : Type := AccessoryCtor (id : nat).
Inductive PlatformPluginConstructor : Type := PlatformCtor (id : nat).
Inductive DynamicPlatformPlugin : Type := DynamicPlatform (id : nat).
Inductive PluginInitializer : Type := Initializer (id : nat).
Inductive API : Type := Api (id : nat).

(** What [require(path)] or [await import(url)] evaluates to, as far as
    [load] inspects it. *)
Inductive ModuleExports : Type :=
  | ModuleFunction (f : PluginInitializer)                 (* [typeof m === "function"] *)
  | ModuleObject (default : option PluginInitializer)      (* truthy, [m.default] a function or not *)
  | ModuleOther.                                           (* anything else *)

Inductive ModuleRequest : Type :=
  | DynamicImport (url : string)       (* [_importDynamic(pathToFileURL(mainPath).href)] *)
  | Require (path : string).           (* [require(mainPath)] *)

Inductive LogLevel : Type := Info | Warn | ErrorLevel.

Record LogEntry : Type := mkLog {
  level : LogLevel;
  message : string;
  parameters : list string;
}.

(** Observable effects of [load], in order. *)
Inductive Effect : Type :=
  | Logged (entry : LogEntry)
  | Imported (request : ModuleRequest).

(** What is imported from semver, path, url, ./version, ./pluginManager
    and the Node runtime. *)
Record Host : Type := {
  getVersion : string;
  processVersion : string;
  satisfies : string -> string -> bool -> bool;   (* version, range, includePrerelease *)
  pathJoin : string -> string -> string;
  pathToFileURL : string -> string;
  loadModule : ModuleRequest -> Completion ModuleExports;
  getAccessoryName : string -> string;
  getPlatformName : string -> string;
}.

(** *** Entry-point resolution (constructor, first half) *)

Definition truthyTarget (o : option ExportTarget) : bool :=
  match o with
  | Some (Path p) => negb (String.eqb p "")
  | Some (Conditions _) => true
  | None => false
  end.

(** [a || b] on [string | table | undefined]. *)
Definition orTarget (a b : option ExportTarget) : option ExportTarget :=
  if truthyTarget a then a else b.

Definition truthyExports (e : option Exports) : bool :=
  match e with
  | Some (ExportsPath p) => negb (String.eqb p "")
  | Some (ExportsTable _) => true
  | None => false
  end.

(** [exports.import || exports.require || exports.node || exports.default || exports["."]] *)
Definition selectExport (entries : gmap string ExportTarget) : option ExportTarget :=
  orTarget (orTarget (orTarget (orTarget (entries !! "import")
                                         (entries !! "require"))
                               (entries !! "node"))
                     (entries !! "default"))
           (entries !! ".").

(** The value of [this.main] when the block guarded by
    [if (packageJSON.exports)] has run: [None] is [undefined]. *)
Definition mainFromExports (e : Exports) : Completion (option string) :=
  match e with
  | ExportsPath p => Return (Some p)
  | ExportsTable entries =>
      match selectExport entries with
      | None =>
          Throw (TypeError "Cannot read properties of undefined (reading 'import')")
      | Some (Path p) => Return (Some p)
      | Some (Conditions c) =>
          if truthyStr (c !! "import") then Return (c !! "import")
          else Return (orStr (orStr (c !! "require") (c !! "node")) (c !! "default"))
      end
  end.

(** [packageJSON.main || "./index.js"] *)
Definition fallbackMain (packageJSON : PackageJSON.t) : string :=
  default "./index.js" (orStr (main packageJSON) (Some "./index.js")).

(** The value of [this.main] at the end of the constructor. *)
Definition resolveMain (packageJSON : PackageJSON.t) : Completion string :=
  match
    match exports packageJSON with
    | Some e =>
        if truthyExports (exports packageJSON) then mainFromExports e
        else Return (Some "")
    | None => Return (Some "")
    end
  with
  | Throw e => Throw e
  | Return m =>
      if truthyStr m then Return (default "" m)
      else Return (fallbackMain packageJSON)
  end.

Definition resolveIsESM (main : string) (packageJSON : PackageJSON.t) : bool :=
  endsWith main ".mjs"
  || (endsWith main ".js"
      && match type packageJSON with
         | Some ty => String.eqb ty "module"
         | None => false
         end).

(** *** The engines shim (constructor, second half) *)

(** [packageJSON.engines] after the constructor; the manifest object is
    updated in place, so the caller sees this value too. *)
Definition shimEngines (packageJSON : PackageJSON.t) : option (gmap string string) :=
  match peerDependencies packageJSON with
  | Some peers =>
      if negb (truthyStr (field (engines packageJSON) "homebridge")) then
        let e := default ∅ (engines packageJSON) in
        Some match peers !! "homebridge" with
             | Some range => <["homebridge" := range]> e
             | None => delete "homebridge" e        (* assigned [undefined] *)
             end
      else engines packageJSON
  | None => engines packageJSON
  end.

(** *** The class *)

Module LoadContext.
Record t : Type := mk {
  engines : option (gmap string string);
  dependencies : option (gmap string string);
}.
End LoadContext.

Record t : Type := mk {
  pluginName : string;
  scope : option string;
  pluginPath : string;
  isESM : bool;
  disabled : bool;
  version : string;
  main : string;
  loadContext : option LoadContext.t;
  pluginInitializer : option PluginInitializer;
  registeredAccessories : gmap string AccessoryPluginConstructor;
  registeredPlatforms : gmap string PlatformPluginConstructor;
  activeDynamicPlatforms : gmap string (list DynamicPlatformPlugin);
}.

Definition setDisabled (b : bool) (p : t) : t :=
  mk (pluginName p) (scope p) (pluginPath p) (isESM p) b (version p) (main p)
     (loadContext p) (pluginInitializer p) (registeredAccessories p)
     (registeredPlatforms p) (activeDynamicPlatforms p).

Definition setLoadContext (c : option LoadContext.t) (p : t) : t :=
  mk (pluginName p) (scope p) (pluginPath p) (isESM p) (disabled p) (version p)
     (main p) c (pluginInitializer p) (registeredAccessories p)
     (registeredPlatforms p) (activeDynamicPlatforms p).

Definition setPluginInitializer (f : option PluginInitializer) (p : t) : t :=
  mk (pluginName p) (scope p) (pluginPath p) (isESM p) (disabled p) (version p)
     (main p) (loadContext p) f (registeredAccessories p)
     (registeredPlatforms p) (activeDynamicPlatforms p).

Definition setRegisteredAccessories
    (m : gmap string AccessoryPluginConstructor) (p : t) : t :=
  mk (pluginName p) (scope p) (pluginPath p) (isESM p) (disabled p) (version p)
     (main p) (loadContext p) (pluginInitializer p) m
     (registeredPlatforms p) (activeDynamicPlatforms p).

Definition setRegisteredPlatforms
    (m : gmap string PlatformPluginConstructor) (p : t) : t :=
  mk (pluginName p) (scope p) (pluginPath p) (isESM p) (disabled p) (version p)
     (main p) (loadContext p) (pluginInitializer p) (registeredAccessories p)
     m (activeDynamicPlatforms p).

Definition setActiveDynamicPlatforms
    (m : gmap string (list DynamicPlatformPlugin)) (p : t) : t :=
  mk (pluginName p) (scope p) (pluginPath p) (isESM p) (disabled p) (version p)
     (main p) (loadContext p) (pluginInitializer p) (registeredAccessories p)
     (registeredPlatforms p) m.

(** [new Plugin(name, path, packageJSON, scope?)] *)
Definition constructor (name path : string) (packageJSON : PackageJSON.t)
    (scope : option string) : Completion t :=
  match resolveMain packageJSON with
  | Throw e => Throw e
  | Return main =>
      Return {|
        pluginName := name;
        scope := scope;
        pluginPath := path;
        isESM := resolveIsESM main packageJSON;
        disabled := false;
        version := default "0.0.0" (orStr (PackageJSON.version packageJSON) (Some "0.0.0"));
        main := main;
        loadContext := Some {|
          LoadContext.engines := shimEngines packageJSON;
          LoadContext.dependencies := PackageJSON.dependencies packageJSON;
        |};
        pluginInitializer := None;
        registeredAccessories := ∅;
        registeredPlatforms := ∅;
        activeDynamicPlatforms := ∅;
      |}
  end.

Definition getPluginIdentifier (p : t) : string :=
  (if truthyStr (scope p) then default "" (scope p) +:+ "/" else "")
  +:+ pluginName p.

Definition getPluginPath (p : t) : string := pluginPath p.

(** *** Registries *)

Definition duplicateAccessory (p : t) (name : string) : Exn :=
  Error ("Plugin '" +:+ getPluginIdentifier p
         +:+ "' tried to register an accessory '" +:+ name
         +:+ "' which has already been registered!").

Definition duplicatePlatform (p : t) (name : string) : Exn :=
  Error ("Plugin '" +:+ getPluginIdentifier p
         +:+ "' tried to register a platform '" +:+ name
         +:+ "' which has already been registered!").

Definition registerAccessory (name : string)
    (constructor : AccessoryPluginConstructor) (p : t)
  : Completion unit * t * list LogEntry :=
  match registeredAccessories p !! name with
  | Some _ =>
      (Throw (duplicateAccessory p name), p, [])
  | None =>
      (Return tt,
       setRegisteredAccessories (<[name := constructor]> (registeredAccessories p)) p,
       if negb (disabled p)
       then [mkLog Info "Registering accessory '%s'"
                   [getPluginIdentifier p +:+ "." +:+ name]]
       else [])
  end.

Definition registerPlatform (name : string)
    (constructor : PlatformPluginConstructor) (p : t)
  : Completion unit * t * list LogEntry :=
  match registeredPlatforms p !! name with
  | Some _ =>
      (Throw (duplicatePlatform p name), p, [])
  | None =>
      (Return tt,
       setRegisteredPlatforms (<[name := constructor]> (registeredPlatforms p)) p,
       if negb (disabled p)
       then [mkLog Info "Registering platform '%s'"
                   [getPluginIdentifier p +:+ "." +:+ name]]
       else [])
  end.

Definition getAccessoryConstructor (host : Host) (accessoryIdentifier : string) (p : t)
  : Completion AccessoryPluginConstructor :=
  let name := getAccessoryName host accessoryIdentifier in
  match registeredAccessories p !! name with
  | Some constructor => Return constructor
  | None =>
      Throw (Error ("The requested accessory '" +:+ name
                    +:+ "' was not registered by the plugin '"
                    +:+ getPluginIdentifier p +:+ "'."))
  end.

Definition getPlatformConstructor (host : Host) (platformIdentifier : string) (p : t)
  : Completion PlatformPluginConstructor * list LogEntry :=
  let name := getPlatformName host platformIdentifier in
  match registeredPlatforms p !! name with
  | Some constructor =>
      (Return constructor,
       match activeDynamicPlatforms p !! name with
       | Some _ =>
           [mkLog ErrorLevel
              ("The dynamic platform " +:+ name +:+ " from the plugin "
               +:+ getPluginIdentifier p +:+ " seems to be configured "
               +:+ "multiple times in your config.json. This behaviour was "
               +:+ "deprecated in homebridge v1.0.0 and will be removed in v2.0.0!")
              []]
       | None => []
       end)
  | None =>
      (Throw (Error ("The requested platform '" +:+ name
                     +:+ "' was not registered by the plugin '"
                     +:+ getPluginIdentifier p +:+ "'.")),
       [])
  end.

(** *** Dynamic platforms *)

(** The array stored in the map is updated in place by [unshift]; the
    map entry and the local [platforms] are the same object, so the entry
    is rewritten here. *)
Definition assignDynamicPlatform (host : Host) (platformIdentifier : string)
    (platformPlugin : DynamicPlatformPlugin) (p : t) : t :=
  let name := getPlatformName host platformIdentifier in
  let platforms := default [] (activeDynamicPlatforms p !! name) in
  setActiveDynamicPlatforms
    (<[name := platformPlugin :: platforms]> (activeDynamicPlatforms p)) p.

(** [platforms && platforms[0]] *)
Definition getActiveDynamicPlatform (platformName : string) (p : t)
  : option DynamicPlatformPlugin :=
  match activeDynamicPlatforms p !! platformName with
  | Some platforms => head platforms
  | None => None
  end.

(** *** Loading *)

(** The double-quote character of the log messages. *)
Definition dq : string := String (Ascii.ascii_of_nat 34) "".

Definition enginesMissing (p : t) : Exn :=
  Error ("Plugin " +:+ pluginPath p
         +:+ " does not contain the 'homebridge' package in 'engines'.").

Definition illegalState : Exn :=
  AssertionError "Reached illegal state. Plugin state is undefined!".

Definition noInitializer (p : t) : Exn :=
  Error ("Plugin " +:+ pluginPath p
         +:+ " does not export a initializer function from main.").

Definition versionMismatch (host : Host) (p : t) (versionRequired : string) : LogEntry :=
  mkLog ErrorLevel
    ("The plugin " +:+ dq +:+ pluginName p +:+ dq
     +:+ " requires a Homebridge version of " +:+ versionRequired
     +:+ " which does not satisfy the current Homebridge version of "
     +:+ getVersion host
     +:+ ". You may need to update this plugin (or Homebridge) to a newer version. "
     +:+ "You may face unexpected issues or stability problems running this plugin.")
    [].

Definition nodeMismatch (host : Host) (p : t) (nodeVersionRequired : string) : LogEntry :=
  mkLog Warn
    ("The plugin " +:+ dq +:+ pluginName p +:+ dq
     +:+ " requires Node.js version of " +:+ nodeVersionRequired
     +:+ " which does not satisfy the current Node.js version of "
     +:+ processVersion host
     +:+ ". You may need to upgrade your installation of Node.js - "
     +:+ "see https://homebridge.io/w/JTKEF")
    [].

Definition bundledCopy (p : t) : LogEntry :=
  mkLog ErrorLevel
    ("The plugin " +:+ dq +:+ pluginName p +:+ dq
     +:+ " defines 'homebridge' and/or 'hap-nodejs' in their 'dependencies' section, "
     +:+ "meaning they carry an additional copy of homebridge and hap-nodejs. "
     +:+ "This not only wastes disk space, but also can cause major incompatibility "
     +:+ "issues and thus is considered bad practice. "
     +:+ "Please inform the developer to update their plugin!")
    [].

(** [load], from its first statement up to the point where the module is
    requested.  For an ES module this is where the caller is suspended. *)
Definition loadGate (host : Host) (p : t)
  : Completion ModuleRequest * t * list LogEntry :=
  match loadContext p with
  | None => (Throw illegalState, p, [])
  | Some context =>
      let p := setLoadContext None p in                    (* free up memory *)
      match LoadContext.engines context with
      | None => (Throw (enginesMissing p), p, [])
      | Some engines =>
          if negb (truthyStr (engines !! "homebridge")) then
            (Throw (enginesMissing p), p, [])
          else
            let versionRequired := default "" (engines !! "homebridge") in
            let nodeVersionRequired := engines !! "node" in
            let l1 :=
              if negb (satisfies host (getVersion host) versionRequired true)
              then [versionMismatch host p versionRequired] else [] in
            let l2 :=
              if truthyStr nodeVersionRequired
                 && negb (satisfies host (processVersion host)
                                    (default "" nodeVersionRequired) false)
              then [nodeMismatch host p (default "" nodeVersionRequired)] else [] in
            let dependencies := default ∅ (LoadContext.dependencies context) in
            let l3 :=
              if truthyStr (dependencies !! "homebridge")
                 || truthyStr (dependencies !! "hap-nodejs")
              then [bundledCopy p] else [] in
            let mainPath := pathJoin host (pluginPath p) (main p) in
            (Return (if isESM p then DynamicImport (pathToFileURL host mainPath)
                     else Require mainPath),
             p, (l1 ++ l2 ++ l3)%list)
      end
  end.

(** [load], from the inspection of [pluginModules] to its end. *)
Definition loadExtract (pluginModules : ModuleExports) (p : t)
  : Completion unit * t :=
  match pluginModules with
  | ModuleFunction f => (Return tt, setPluginInitializer (Some f) p)
  | ModuleObject (Some f) => (Return tt, setPluginInitializer (Some f) p)
  | ModuleObject None | ModuleOther => (Throw (noInitializer p), p)
  end.

(** [async load()] run to completion. *)
Definition load (host : Host) (p : t) : Completion unit * t * list Effect :=
  let '(gate, p, logs) := loadGate host p in
  match gate with
  | Throw e => (Throw e, p, Logged <$> logs)
  | Return request =>
      let trace := ((Logged <$> logs) ++ [Imported request])%list in
      match loadModule host request with
      | Throw e => (Throw e, p, trace)
      | Return pluginModules =>
          let '(c, p) := loadExtract pluginModules p in
          (c, p, trace)
      end
  end.

(** *** Initialization *)

(** [void | Promise<void>] *)
Inductive InitReturn : Type :=
  | Void
  | Pending (promise : nat).

(** Running plugin code: the initializer is an opaque function of the
    host; it may call back into the descriptor it initializes. *)
Definition Invoke : Type :=
  PluginInitializer -> API -> t -> Completion InitReturn * t.

Definition notLoaded : Exn :=
  Error "Tried to initialize a plugin which hasn't been loaded yet!".

Definition initialize (invoke : Invoke) (api : API) (p : t)
  : Completion InitReturn * t :=
  match pluginInitializer p with
  | None => (Throw notLoaded, p)
  | Some pluginInitializer => invoke pluginInitializer api p
  end.

End Plugin.

(* ===================================================================== *)
(** ** Sessions over the static slot                                      *)
(* ===================================================================== *)

(** The two entry points of [platformAccessory.ts] that touch
    [PlatformAccessory.injectedAccessory]: the public constructor reads
    it, [deserialize] writes it. *)
Inductive HandleCall : Type :=
  | New (displayName uuid : string) (category : option Z)
  | Deserialize (json : gmap string JValue).

Definition exec (hap : HapLib) (slot : PlatformAccessory.Slot) (c : HandleCall)
  : Completion PlatformAccessory.t * PlatformAccessory.Slot :=
  match c with
  | New displayName uuid category =>
      (PlatformAccessory.constructor hap slot displayName uuid category, slot)
  | Deserialize json => PlatformAccessory.deserialize hap slot json
  end.

(** Calls made one after the other (the code is synchronous). *)
Fixpoint run (hap : HapLib) (slot : PlatformAccessory.Slot) (cs : list HandleCall)
  : list (Completion PlatformAccessory.t) * PlatformAccessory.Slot :=
  match cs with
  | [] => ([], slot)
  | c :: rest =>
      let '(r, slot) := exec hap slot c in
      let '(rs, slot) := run hap slot rest in
      (r :: rs, slot)
  end.

(** Successive [assignDynamicPlatform] calls. *)
Fixpoint assignAll (host : Plugin.Host)
    (calls : list (string * Plugin.DynamicPlatformPlugin)) (p : Plugin.t) : Plugin.t :=
  match calls with
  | [] => p
  | (identifier, instance) :: rest =>
      assignAll host rest (Plugin.assignDynamicPlatform host identifier instance p)
  end.

(** The instances a sequence of [assignDynamicPlatform] calls hands to
    the platform [name], in call order. *)
Definition instancesFor (host : Plugin.Host) (name : string)
    (calls : list (string * Plugin.DynamicPlatformPlugin))
  : list Plugin.DynamicPlatformPlugin :=
  omap (fun call : string * Plugin.DynamicPlatformPlugin =>
          if decide (Plugin.getPlatformName host call.1 = name)
          then Some call.2 else None)
       calls.

(* ===================================================================== *)
(** ** Concrete collaborators and inputs                                  *)
(* ===================================================================== *)

(** A small delegate library in the shape of hap-nodejs, for running the
    definitions above on concrete inputs. *)
Definition sampleHap : HapLib := {|
  Accessory_new := fun displayName uuid =>
    if String.eqb displayName ""
    then Throw (Foreign (JStr "Accessories must be created with a non-empty displayName."))
    else Return (Accessory.mk displayName uuid 1 [] []);
  Accessory_serialize := fun a =>
    {[ "displayName" := JStr (Accessory.displayName a);
       "UUID" := JStr (Accessory.UUID a);
       "category" := JNum (Accessory.category a);
       "services" := JArr (Accessory.services a) ]};
  Accessory_deserialize := fun json =>
    match json !! "displayName", json !! "UUID", json !! "category" with
    | Some (JStr displayName), Some (JStr uuid), Some (JNum category) =>
        Return (Accessory.mk displayName uuid category
                  match json !! "services" with
                  | Some (JArr services) => services
                  | _ => []
                  end [])
    | _, _, _ => Throw (Foreign (JStr "malformed accessory record"))
    end;
  Categories_OTHER := 1;
|}.

(** The same library with the checks of the hap-nodejs constructor: an
    accessory needs a non-empty display name and a non-empty UUID, when
    it is created and when it is decoded. *)
Definition validatingHap : HapLib := {|
  Accessory_new := fun displayName uuid =>
    if String.eqb displayName "" || String.eqb uuid ""
    then Throw (Foreign (JStr "invalid accessory identity"))
    else Return (Accessory.mk displayName uuid 1 [] []);
  Accessory_serialize := Accessory_serialize sampleHap;
  Accessory_deserialize := fun json =>
    match json !! "displayName", json !! "UUID", json !! "category" with
    | Some (JStr displayName), Some (JStr uuid), Some (JNum category) =>
        if String.eqb displayName "" || String.eqb uuid ""
        then Throw (Foreign (JStr "invalid accessory identity"))
        else Return (Accessory.mk displayName uuid category
                       match json !! "services" with
                       | Some (JArr services) => services
                       | _ => []
                       end [])
    | _, _, _ => Throw (Foreign (JStr "malformed accessory record"))
    end;
  Categories_OTHER := 1;
|}.

(** The text after the first dot, if there is one. *)
Fixpoint afterDot (s : string) : option string :=
  match s with
  | EmptyString => None
  | String c rest => if Ascii.eqb c "."%char then Some rest else afterDot rest
  end.

Definition sampleHost : Plugin.Host := {|
  Plugin.getVersion := "1.8.0";
  Plugin.processVersion := "v20.11.0";
  Plugin.satisfies := fun _ _ _ => true;
  Plugin.pathJoin := fun dir file => dir +:+ "/" +:+ file;
  Plugin.pathToFileURL := fun path => "file://" +:+ path;
  Plugin.loadModule := fun _ => Return (Plugin.ModuleFunction (Plugin.Initializer 0));
  Plugin.getAccessoryName := fun identifier => default identifier (afterDot identifier);
  Plugin.getPlatformName := fun identifier => default identifier (afterDot identifier);
|}.

(** A registered handle whose mirror fields agree with its delegate. *)
Definition lamp : PlatformAccessory.t := {|
  PlatformAccessory._associatedPlugin := JStr "x";
  PlatformAccessory._associatedPlatform := JStr "y";
  PlatformAccessory._associatedHAPAccessory :=
    Accessory.mk "Lamp" "uuid-1" 1 [] [Accessory.HandleForwarder];
  PlatformAccessory.displayName := "Desk lamp";
  PlatformAccessory.UUID := "uuid-1";
  PlatformAccessory.category := JNum 1;
  PlatformAccessory.reachable := false;
  PlatformAccessory.context := JObj [("foo", JStr "bar")];
  PlatformAccessory.listeners := [];
|}.

(** [lamp] after plugin code ran [lamp.category = 5]: the field is
    public, and the delegate is not told. *)
Definition recategorized : PlatformAccessory.t := {|
  PlatformAccessory._associatedPlugin := JStr "x";
  PlatformAccessory._associatedPlatform := JStr "y";
  PlatformAccessory._associatedHAPAccessory :=
    Accessory.mk "Lamp" "uuid-1" 1 [] [Accessory.HandleForwarder];
  PlatformAccessory.displayName := "Desk lamp";
  PlatformAccessory.UUID := "uuid-1";
  PlatformAccessory.category := JNum 5;
  PlatformAccessory.reachable := false;
  PlatformAccessory.context := JObj [("foo", JStr "bar")];
  PlatformAccessory.listeners := [];
|}.

Definition quietListener : PlatformAccessory.Listener :=
  PlatformAccessory.mkListener 1 None.

Definition failingListener : PlatformAccessory.Listener :=
  PlatformAccessory.mkListener 2 (Some (Error "listener failed")).

Definition emptyManifest : PackageJSON.t :=
  PackageJSON.mk (Some "1.0.0") None None None None None None.

(** [{ "version": "1.0.0", "main": "./lib/index.js",
       "exports": { "./feature": "./feature.js" } }] *)
Definition subpathOnly : PackageJSON.t :=
  PackageJSON.mk (Some "1.0.0")
    (Some (PackageJSON.ExportsTable {[ "./feature" := PackageJSON.Path "./feature.js" ]}))
    (Some "./lib/index.js") None
    (Some {[ "homebridge" := "^1.6.0" ]}) None None.

(** [{ "version": "1.0.0", "peerDependencies": { "homebridge": "^1.6.0" } }] *)
Definition peerOnly : PackageJSON.t :=
  PackageJSON.mk (Some "1.0.0") None None None None None
    (Some {[ "homebridge" := "^1.6.0" ]}).

(** [new Plugin("homebridge-sample", "/plugins/homebridge-sample", emptyManifest)] *)
Definition bare : Plugin.t := {|
  Plugin.pluginName := "homebridge-sample";
  Plugin.scope := None;
  Plugin.pluginPath := "/plugins/homebridge-sample";
  Plugin.isESM := false;
  Plugin.disabled := false;
  Plugin.version := "1.0.0";
  Plugin.main := "./index.js";
  Plugin.loadContext := Some (Plugin.LoadContext.mk None None);
  Plugin.pluginInitializer := None;
  Plugin.registeredAccessories := ∅;
  Plugin.registeredPlatforms := ∅;
  Plugin.activeDynamicPlatforms := ∅;
|}.

(** Plugin code that fails whatever the initializer. *)
Definition failingInvoke : Plugin.Invoke :=
  fun _ _ p => (Throw (Foreign (JStr "initializer failed")), p).

(** Plugin code that registers one accessory and returns a promise. *)
Definition registeringInvoke : Plugin.Invoke :=
  fun _ _ p =>
    let '(_, p, _) := Plugin.registerAccessory "Switch" (Plugin.AccessoryCtor 1) p in
    (Return (Plugin.Pending 0), p).

(** A delegate library that decodes whatever it is given, filling the
    gaps: a missing name or UUID reads as empty, a missing category as 1. *)
Definition lenientHap : HapLib := {|
  Accessory_new := fun displayName uuid =>
    Return (Accessory.mk displayName uuid 1 [] []);
  Accessory_serialize := Accessory_serialize sampleHap;
  Accessory_deserialize := fun json =>
    Return (Accessory.mk
              match json !! "displayName" with Some (JStr s) => s | _ => "" end
              match json !! "UUID" with Some (JStr s) => s | _ => "" end
              match json !! "category" with Some (JNum c) => c | _ => 1 end
              [] []);
  Categories_OTHER := 1;
|}.

(** [lamp] seen unreachable, with two listeners attached around a
    failing one. *)
Definition watched : PlatformAccessory.t :=
  PlatformAccessory.on (PlatformAccessory.mkListener 3 None)
    (PlatformAccessory.on failingListener
       (PlatformAccessory.on quietListener lamp)).

(** A host on which no version range is ever satisfied. *)
Definition strictHost : Plugin.Host := {|
  Plugin.getVersion := "1.8.0";
  Plugin.processVersion := "v20.11.0";
  Plugin.satisfies := fun _ _ _ => false;
  Plugin.pathJoin := Plugin.pathJoin sampleHost;
  Plugin.pathToFileURL := Plugin.pathToFileURL sampleHost;
  Plugin.loadModule := fun _ => Return Plugin.ModuleOther;
  Plugin.getAccessoryName := Plugin.getAccessoryName sampleHost;
  Plugin.getPlatformName := Plugin.getPlatformName sampleHost;
|}.

(** [{ "version": "2.1.0", "type": "module", "main": "./legacy.js",
       "exports": { "import": "./dist/index.mjs", "require": "./dist/index.cjs" },
       "engines": { "homebridge": "^1.6.0", "node": "^18 || ^20" },
       "dependencies": { "hap-nodejs": "^0.11.0" },
       "peerDependencies": { "homebridge": "^1.0.0" } }] *)
Definition dualFormat : PackageJSON.t :=
  PackageJSON.mk (Some "2.1.0")
    (Some (PackageJSON.ExportsTable
             {[ "import" := PackageJSON.Path "./dist/index.mjs";
                "require" := PackageJSON.Path "./dist/index.cjs" ]}))
    (Some "./legacy.js") (Some "module")
    (Some {[ "homebridge" := "^1.6.0"; "node" := "^18 || ^20" ]})
    (Some {[ "hap-nodejs" := "^0.11.0" ]})
    (Some {[ "homebridge" := "^1.0.0" ]}).

(** [{ "exports": { ".": { "types": "./index.d.ts" } }, "main": "" }] *)
Definition typesOnly : PackageJSON.t :=
  PackageJSON.mk None
    (Some (PackageJSON.ExportsTable
             {[ "." := PackageJSON.Conditions {[ "types" := "./index.d.ts" ]} ]}))
    (Some "") None None None None.

(** [bare] with a scope, one platform registered and one dynamic
    instance of it active. *)
Definition scoped : Plugin.t := {|
  Plugin.pluginName := "homebridge-sample";
  Plugin.scope := Some "@acme";
  Plugin.pluginPath := "/plugins/@acme/homebridge-sample";
  Plugin.isESM := false;
  Plugin.disabled := false;
  Plugin.version := "1.0.0";
  Plugin.main := "./index.js";
  Plugin.loadContext := None;
  Plugin.pluginInitializer := Some (Plugin.Initializer 0);
  Plugin.registeredAccessories := ∅;
  Plugin.registeredPlatforms := {[ "Hue" := Plugin.PlatformCtor 1 ]};
  Plugin.activeDynamicPlatforms := {[ "Hue" := [Plugin.DynamicPlatform 1] ]};
|}.

(** [new Plugin("homebridge-sample", "/plugins/homebridge-sample", dualFormat)] *)
Definition dual : Plugin.t := {|
  Plugin.pluginName := "homebridge-sample";
  Plugin.scope := None;
  Plugin.pluginPath := "/plugins/homebridge-sample";
  Plugin.isESM := true;
  Plugin.disabled := false;
  Plugin.version := "2.1.0";
  Plugin.main := "./dist/index.mjs";
  Plugin.loadContext :=
    Some (Plugin.LoadContext.mk
            (Some {[ "homebridge" := "^1.6.0"; "node" := "^18 || ^20" ]})
            (Some {[ "hap-nodejs" := "^0.11.0" ]}));
  Plugin.pluginInitializer := None;
  Plugin.registeredAccessories := ∅;
  Plugin.registeredPlatforms := ∅;
  Plugin.activeDynamicPlatforms := ∅;
|}.

(* ===================================================================== *)
(** ** Serialization of handles                                           *)
(* ===================================================================== *)

Section Serialization.

Import PlatformAccessory.

(** With an occupied slot the constructor cannot fail, and it wraps the
    occupant. *)
Lemma constructor_injected hap injected displayName uuid :
  constructor hap (Some injected) displayName uuid None
  = Return {|
      _associatedPlugin := JUndefined;
      _associatedPlatform := JUndefined;
      _associatedHAPAccessory :=
        Accessory.onIdentify Accessory.HandleForwarder injected;
      PlatformAccessory.displayName := Accessory.displayName injected;
      PlatformAccessory.UUID := Accessory.UUID injected;
      PlatformAccessory.category := JNum (Categories_OTHER hap);
      reachable := false;
      context := JObj [];
      listeners := [];
    |}.
Proof. reflexivity. Qed.

(** The record [serialize] builds, key by key. *)
Lemma serialize_lookup hap h k :
  (serialize hap h).1 !! k =
  match Accessory_serialize hap
          (Accessory.setDisplayName (displayName h) (_associatedHAPAccessory h)) !! k with
  | Some v => Some v
  | None =>
      if decide (k = "plugin") then Some (_associatedPlugin h)
      else if decide (k = "platform") then Some (_associatedPlatform h)
      else if decide (k = "context") then Some (context h)
      else None
  end.
Proof.
  unfold serialize, spread. cbn [fst].
  rewrite lookup_union.
  destruct (Accessory_serialize hap _ !! k) as [v|] eqn:E.
  - apply union_Some_l.
  - rewrite (left_id None _).
    repeat case_decide; subst; by simplify_map_eq.
Qed.

(** The mirror fields agree with the delegate when the handle leaves the
    constructor (the category does when one was passed) ... *)
Lemma constructor_mirrors hap slot name uuid cat h :
  constructor hap slot name uuid cat = Return h ->
  displayName h = Accessory.displayName (_associatedHAPAccessory h)
  /\ UUID h = Accessory.UUID (_associatedHAPAccessory h)
  /\ (truthyCategory cat = true ->
      category h = JNum (Accessory.category (_associatedHAPAccessory h))).
Proof.
  unfold constructor.
  destruct (match slot with Some i => Return i | None => _ end) as [a0 | e];
    [| discriminate].
  intros [= <-]. cbn.
  destruct cat as [c |]; [destruct (truthyCategory (Some c)) |]; repeat split;
    discriminate.
Qed.

(** ... and when it leaves [deserialize], for a record whose
    [category] is the category of the delegate it decodes to. *)
Lemma deserialize_mirrors hap slot a (json : gmap string JValue) h :
  Accessory_deserialize hap json = Return a ->
  json !! "category" = Some (JNum (Accessory.category a)) ->
  (deserialize hap slot json).1 = Return h ->
  displayName h = Accessory.displayName (_associatedHAPAccessory h)
  /\ UUID h = Accessory.UUID (_associatedHAPAccessory h)
  /\ category h = JNum (Accessory.category (_associatedHAPAccessory h)).
Proof.
  intros Ha Hc. unfold deserialize. rewrite Ha, constructor_injected.
  intros [= <-]. cbn. repeat split. unfold prop. by rewrite Hc.
Qed.

(** The validating library round-trips every handle that has a name and
    whose delegate has a UUID. *)
Lemma validatingHap_round_trips (h : t) :
  displayName h <> "" ->
  Accessory.UUID (_associatedHAPAccessory h) <> "" ->
  RoundTripsAt validatingHap h.
Proof.
  intros Hname Huuid. split.
  - reflexivity.
  - intros k Hk. simpl in Hk. destruct Hk as [<- | [<- | [<- | []]]]; reflexivity.
  - assert (Hd : (serialize validatingHap h).1 !! "displayName"
                 = Some (JStr (displayName h)))
      by (rewrite serialize_lookup; reflexivity).
    assert (Hu : (serialize validatingHap h).1 !! "UUID"
                 = Some (JStr (Accessory.UUID (_associatedHAPAccessory h))))
      by (rewrite serialize_lookup; reflexivity).
    assert (Hc : (serialize validatingHap h).1 !! "category"
                 = Some (JNum (Accessory.category (_associatedHAPAccessory h))))
      by (rewrite serialize_lookup; reflexivity).
    assert (Hs : (serialize validatingHap h).1 !! "services"
                 = Some (JArr (Accessory.services (_associatedHAPAccessory h))))
      by (rewrite serialize_lookup; reflexivity).
    cbn [Accessory_deserialize validatingHap]. rewrite Hd, Hu, Hc, Hs.
    destruct (String.eqb_spec (displayName h) ""); [done |].
    destruct (String.eqb_spec (Accessory.UUID (_associatedHAPAccessory h)) ""); [done |].
    cbn. eexists. repeat split.
Qed.

(** C1, as amended.  For every handle [h] whose plugin and platform are
    set and whose [UUID] and [category] fields still mirror the delegate,
    deserializing the record [serialize] produces yields a handle with the
    same display name, UUID, category, context, plugin and platform,
    provided the delegate library round-trips the identity and category
    of the delegate of [h], stores the category under [category], and
    writes none of the keys plugin, platform, context for it. *)
Theorem deserialize_serialize_handle (hap : HapLib) (h : t) (slot : Slot) :
  RoundTripsAt hap h ->
  _associatedPlugin h <> JUndefined ->
  _associatedPlatform h <> JUndefined ->
  UUID h = Accessory.UUID (_associatedHAPAccessory h) ->
  category h = JNum (Accessory.category (_associatedHAPAccessory h)) ->
  exists h',
    (deserialize hap slot (serialize hap h).1).1 = Return h'
    /\ displayName h' = displayName h
    /\ UUID h' = UUID h
    /\ category h' = category h
    /\ context h' = context h
    /\ _associatedPlugin h' = _associatedPlugin h
    /\ _associatedPlatform h' = _associatedPlatform h.
Proof.
  intros [Hkey Hkeys (a' & Ha & Hdn & Hu & Hc)] _ _ Huuid Hcat.
  cbn [serialize snd _associatedHAPAccessory withDelegate] in Hkey, Hkeys, Hdn, Hu, Hc.
  assert (Hown : forall k, In k ownKeys ->
            (serialize hap h).1 !! k =
            if decide (k = "plugin") then Some (_associatedPlugin h)
            else if decide (k = "platform") then Some (_associatedPlatform h)
            else if decide (k = "context") then Some (context h)
            else None).
  { intros k Hk. rewrite serialize_lookup. by rewrite (Hkeys k Hk). }
  unfold deserialize. rewrite Ha, constructor_injected.
  eexists. split; [reflexivity |]. cbn [fst displayName UUID category context
    _associatedPlugin _associatedPlatform].
  repeat split.
  - by rewrite Hdn.
  - by rewrite Hu, Huuid.
  - unfold prop. rewrite serialize_lookup, Hkey. cbn. by rewrite Hcat.
  - unfold prop. rewrite Hown by (simpl; tauto). reflexivity.
  - unfold prop. rewrite Hown by (simpl; tauto). reflexivity.
  - unfold prop. rewrite Hown by (simpl; tauto). reflexivity.
Qed.

Lemma deserialize_serialize_handle_witness :
  exists h',
    (deserialize validatingHap None (serialize validatingHap lamp).1).1 = Return h'
    /\ displayName h' = "Desk lamp"
    /\ UUID h' = "uuid-1"
    /\ category h' = JNum 1
    /\ context h' = JObj [("foo", JStr "bar")]
    /\ _associatedPlugin h' = JStr "x"
    /\ _associatedPlatform h' = JStr "y".
Proof.
  apply (deserialize_serialize_handle validatingHap lamp None);
    [apply validatingHap_round_trips; discriminate
    | discriminate | discriminate | reflexivity | reflexivity].
Defined.

(** C1, as stated, fails.  [recategorized] is registered and the
    validating library round-trips its delegate, yet the handle whose
    public [category] field was reassigned to 5 comes back with the
    delegate's category, 1. *)
Lemma reassigned_category_is_not_restored :
  (category recategorized = JNum 5
   /\ exists h',
        (deserialize validatingHap None (serialize validatingHap recategorized).1).1
        = Return h'
        /\ category h' = JNum 1)
  /\ ~ (forall (hap : HapLib) (h : t) (slot : Slot),
          RoundTripsAt hap h ->
          _associatedPlugin h <> JUndefined ->
          _associatedPlatform h <> JUndefined ->
          exists h',
            (deserialize hap slot (serialize hap h).1).1 = Return h'
            /\ displayName h' = displayName h
            /\ UUID h' = UUID h
            /\ category h' = category h
            /\ context h' = context h
            /\ _associatedPlugin h' = _associatedPlugin h
            /\ _associatedPlatform h' = _associatedPlatform h).
Proof.
  split.
  - split; [reflexivity |]. eexists. split; [vm_compute; reflexivity | reflexivity].
  - intros claim.
    destruct (claim validatingHap recategorized None)
      as (h' & Hd & _ & _ & Hcat & _);
      [apply validatingHap_round_trips; discriminate | discriminate | discriminate |].
    vm_compute in Hd. injection Hd as <-. discriminate Hcat.
Qed.

(** A rename, by [updateDisplayName] or by a write to the public field,
    is what the delegate is serialized under. *)
Lemma serialize_after_rename hap (name : string) (h : t) :
  name <> "" ->
  displayName (updateDisplayName name h) = name
  /\ Accessory.displayName (_associatedHAPAccessory (updateDisplayName name h)) = name
  /\ Accessory.displayName
       (_associatedHAPAccessory (serialize hap (updateDisplayName name h)).2) = name.
Proof.
  intros Hname. unfold updateDisplayName.
  destruct (String.eqb_spec name ""); [done |]. repeat split.
Qed.

(** C7.  [serialize] first copies the handle's display name into the
    delegate, so the delegate is serialized under the current name.  Every
    field the delegate's serialization produces is in the record
    unchanged, and every other key is the wrapper's.  The delegate's
    serialization is a [SerializedAccessory], which has no plugin,
    platform or context field: given that, these three keys of the record
    hold the handle's own values. *)
Theorem serialize_record_shape (hap : HapLib) (h : t) :
  (forall k, In k ownKeys ->
     Accessory_serialize hap
       (Accessory.setDisplayName (displayName h) (_associatedHAPAccessory h)) !! k
     = None) ->
  _associatedHAPAccessory (serialize hap h).2
    = Accessory.setDisplayName (displayName h) (_associatedHAPAccessory h)
  /\ Accessory.displayName (_associatedHAPAccessory (serialize hap h).2) = displayName h
  /\ (forall k v,
        Accessory_serialize hap (_associatedHAPAccessory (serialize hap h).2) !! k = Some v ->
        (serialize hap h).1 !! k = Some v)
  /\ (forall k,
        Accessory_serialize hap (_associatedHAPAccessory (serialize hap h).2) !! k = None ->
        ~ In k ownKeys ->
        (serialize hap h).1 !! k = None)
  /\ (serialize hap h).1 !! "plugin" = Some (_associatedPlugin h)
  /\ (serialize hap h).1 !! "platform" = Some (_associatedPlatform h)
  /\ (serialize hap h).1 !! "context" = Some (context h).
Proof.
  intros Hfree.
  split; [reflexivity |]. split; [reflexivity |].
  split; [| split].
  - intros k v Hk. rewrite serialize_lookup. cbn in Hk. by rewrite Hk.
  - intros k Hk Hnot. rewrite serialize_lookup. cbn in Hk. rewrite Hk.
    repeat case_decide; subst; try done; exfalso; apply Hnot; simpl; tauto.
  - repeat split; rewrite serialize_lookup, Hfree by (simpl; tauto); reflexivity.
Qed.

Lemma serialize_record_shape_witness :
  _associatedHAPAccessory (serialize sampleHap lamp).2
    = Accessory.mk "Desk lamp" "uuid-1" 1 [] [Accessory.HandleForwarder]
  /\ (serialize sampleHap lamp).1 !! "displayName" = Some (JStr "Desk lamp")
  /\ (serialize sampleHap lamp).1 !! "plugin" = Some (JStr "x")
  /\ (serialize sampleHap lamp).1 !! "platform" = Some (JStr "y")
  /\ (serialize sampleHap lamp).1 !! "context" = Some (JObj [("foo", JStr "bar")]).
Proof.
  assert (Hfree : forall k, In k ownKeys ->
            Accessory_serialize sampleHap
              (Accessory.setDisplayName (displayName lamp)
                 (_associatedHAPAccessory lamp)) !! k = None)
    by (intros k [<- | [<- | [<- | []]]]; reflexivity).
  destruct (serialize_record_shape sampleHap lamp Hfree)
    as (Hd & _ & Hkeep & _ & Hplugin & Hplatform & Hcontext).
  split; [exact Hd |].
  split; [apply Hkeep; reflexivity |].
  split; [exact Hplugin |].
  split; [exact Hplatform | exact Hcontext].
Defined.

End Serialization.

(* ===================================================================== *)
(** ** The injection slot                                                 *)
(* ===================================================================== *)

Section InjectionSlot.

Import PlatformAccessory.

Variable hap : HapLib.

(** [deserialize] either fails in the delegate library before touching
    the slot, or returns with the slot cleared. *)
Lemma deserialize_slot (slot : Slot) (json : gmap string JValue) :
  match Accessory_deserialize hap json with
  | Throw e => deserialize hap slot json = (Throw e, slot)
  | Return a =>
      exists h, deserialize hap slot json = (Return h, None)
                /\ _associatedHAPAccessory h
                   = Accessory.onIdentify Accessory.HandleForwarder a
  end.
Proof.
  unfold deserialize. destruct (Accessory_deserialize hap json) as [a | e].
  - rewrite constructor_injected. eexists. split; reflexivity.
  - reflexivity.
Qed.

Lemma exec_keeps_empty (c : HandleCall) : (exec hap None c).2 = None.
Proof.
  destruct c as [dn uuid cat | json]; [reflexivity |].
  cbn [exec]. pose proof (deserialize_slot None json) as H.
  destruct (Accessory_deserialize hap json).
  - destruct H as (h & -> & _). reflexivity.
  - rewrite H. reflexivity.
Qed.

Lemma run_from_empty (cs : list HandleCall) :
  run hap None cs = (map (fun c => (exec hap None c).1) cs, None).
Proof.
  induction cs as [| c cs IH]; [reflexivity |].
  cbn [run map]. pose proof (exec_keeps_empty c) as Hc.
  destruct (exec hap None c) as [r slot]. cbn in Hc. subst slot.
  rewrite IH. reflexivity.
Qed.

(** What the constructor builds when nothing is injected. *)
Lemma constructor_fresh (displayName uuid : string) (category : option Z) :
  constructor hap None displayName uuid category =
  match Accessory_new hap displayName uuid with
  | Throw e => Throw e
  | Return fresh =>
      let configured :=
        match category with
        | Some c => if truthyCategory category then Accessory.setCategory c fresh else fresh
        | None => fresh
        end in
      Return {|
        _associatedPlugin := JUndefined;
        _associatedPlatform := JUndefined;
        _associatedHAPAccessory :=
          Accessory.onIdentify Accessory.HandleForwarder configured;
        PlatformAccessory.displayName := Accessory.displayName configured;
        PlatformAccessory.UUID := Accessory.UUID configured;
        PlatformAccessory.category :=
          JNum (match category with
                | Some c => if truthyCategory category then c else Categories_OTHER hap
                | None => Categories_OTHER hap
                end);
        reachable := false;
        context := JObj [];
        listeners := [];
      |}
  end.
Proof. reflexivity. Qed.

(** C10.  Starting from an empty slot, every sequence of constructor and
    [deserialize] calls leaves the slot empty after each call, so each
    call runs as if it were the first.  Whatever the slot holds,
    [deserialize] fails only where the delegate library rejects the
    record, and then has not touched the slot; otherwise it puts the
    decoded delegate in the slot, the constructor, run on that slot,
    returns the handle that wraps this very delegate, and [deserialize]
    returns that handle, overlaid with the record's fields, with the slot
    cleared.  With an empty slot the constructor wraps the delegate
    [new Accessory(displayName, uuid)] returns, and fails only where that
    fails. *)
Theorem injection_slot_invariant :
  (forall cs, run hap None cs = (map (fun c => (exec hap None c).1) cs, None))
  /\ (forall slot json,
        match Accessory_deserialize hap json with
        | Throw e => deserialize hap slot json = (Throw e, slot)
        | Return accessory =>
            constructor hap (Some accessory) (Accessory.displayName accessory)
                        (Accessory.UUID accessory) None
            = Return {|
                _associatedPlugin := JUndefined;
                _associatedPlatform := JUndefined;
                _associatedHAPAccessory :=
                  Accessory.onIdentify Accessory.HandleForwarder accessory;
                PlatformAccessory.displayName := Accessory.displayName accessory;
                PlatformAccessory.UUID := Accessory.UUID accessory;
                PlatformAccessory.category := JNum (Categories_OTHER hap);
                reachable := false;
                context := JObj [];
                listeners := [];
              |}
            /\ deserialize hap slot json
               = (Return {|
                    _associatedPlugin := prop json "plugin";
                    _associatedPlatform := prop json "platform";
                    _associatedHAPAccessory :=
                      Accessory.onIdentify Accessory.HandleForwarder accessory;
                    PlatformAccessory.displayName := Accessory.displayName accessory;
                    PlatformAccessory.UUID := Accessory.UUID accessory;
                    PlatformAccessory.category := prop json "category";
                    reachable := false;
                    context := prop json "context";
                    listeners := [];
                  |}, None)
        end)
  /\ (forall displayName uuid category,
        constructor hap None displayName uuid category =
        match Accessory_new hap displayName uuid with
        | Throw e => Throw e
        | Return fresh =>
            let configured :=
              match category with
              | Some c =>
                  if truthyCategory category then Accessory.setCategory c fresh
                  else fresh
              | None => fresh
              end in
            Return {|
              _associatedPlugin := JUndefined;
              _associatedPlatform := JUndefined;
              _associatedHAPAccessory :=
                Accessory.onIdentify Accessory.HandleForwarder configured;
              PlatformAccessory.displayName := Accessory.displayName configured;
              PlatformAccessory.UUID := Accessory.UUID configured;
              PlatformAccessory.category :=
                JNum (match category with
                      | Some c =>
                          if truthyCategory category then c else Categories_OTHER hap
                      | None => Categories_OTHER hap
                      end);
              reachable := false;
              context := JObj [];
              listeners := [];
            |}
        end).
Proof.
  split; [apply run_from_empty |]. split; [| apply constructor_fresh].
  intros slot json. unfold deserialize.
  destruct (Accessory_deserialize hap json) as [accessory | e]; [| reflexivity].
  rewrite constructor_injected. split; reflexivity.
Qed.

End InjectionSlot.

(** A session on the sample library: a fresh handle, a rehydrated one,
    a failing rehydration, and a fresh handle again. *)
Lemma injection_slot_invariant_witness :
  run sampleHap None
    [New "Lamp" "uuid-1" None;
     Deserialize (PlatformAccessory.serialize sampleHap lamp).1;
     Deserialize ∅;
     New "Fan" "uuid-2" (Some 3)]
  = ([Return (PlatformAccessory.mk JUndefined JUndefined
                (Accessory.mk "Lamp" "uuid-1" 1 [] [Accessory.HandleForwarder])
                "Lamp" "uuid-1" (JNum 1) false (JObj []) []);
      Return (PlatformAccessory.mk (JStr "x") (JStr "y")
                (Accessory.mk "Desk lamp" "uuid-1" 1 [] [Accessory.HandleForwarder])
                "Desk lamp" "uuid-1" (JNum 1) false (JObj [("foo", JStr "bar")]) []);
      Throw (Foreign (JStr "malformed accessory record"));
      Return (PlatformAccessory.mk JUndefined JUndefined
                (Accessory.mk "Fan" "uuid-2" 3 [] [Accessory.HandleForwarder])
                "Fan" "uuid-2" (JNum 3) false (JObj []) [])],
     None).
Proof.
  rewrite (proj1 (injection_slot_invariant sampleHap)).
  vm_compute. reflexivity.
Defined.

(* ===================================================================== *)
(** ** Identify forwarding                                                *)
(* ===================================================================== *)

Section Identify.

Import PlatformAccessory.

(** The constructor registers the forwarder once, after whatever the
    delegate already listens with. *)
Lemma constructor_registers_forwarder hap slot displayName uuid category h :
  constructor hap slot displayName uuid category = Return h ->
  exists before,
    Accessory.identifyListeners (_associatedHAPAccessory h)
    = (before ++ [Accessory.HandleForwarder])%list
    /\ listeners h = [].
Proof.
  unfold constructor. intros H.
  destruct (match slot with Some i => Return i | None => _ end) as [a0 | e];
    [| discriminate H].
  injection H as <-. cbn.
  destruct category as [c |]; [destruct (truthyCategory (Some c)) |];
    eexists; split; reflexivity.
Qed.

Lemma deliver_all_return (ls : list Listener) (args : list Arg) :
  Forall (fun l => raises l = None) ls ->
  deliver ls args = (map (fun l => Invoke (listenerId l) args) ls, Return tt).
Proof.
  induction 1 as [| l ls Hl _ IH]; [reflexivity |].
  cbn [deliver map]. rewrite Hl, IH. reflexivity.
Qed.

(** C6, as amended.  When every attached listener returns, an identify
    notification makes the handle emit one identify event, delivered to
    each of its listeners in order with the pairing flag and an empty
    callback as arguments, and then invokes the completion callback
    once; with no listener attached the emission is followed by the
    callback directly. *)
Theorem identify_is_forwarded (h : t) (paired : bool) (callback : Callback) :
  Forall (fun l => raises l = None) (listeners h) ->
  identifyForwarder h paired callback
  = ((Emit IDENTIFY [ABool paired; AFun EmptyCallback]
        :: map (fun l => Invoke (listenerId l) [ABool paired; AFun EmptyCallback])
               (listeners h)
        ++ [Call callback])%list,
     Return tt).
Proof.
  intros Hret. unfold identifyForwarder, emit.
  rewrite (deliver_all_return _ _ Hret). reflexivity.
Qed.

Lemma identify_is_forwarded_witness :
  identifyForwarder lamp true (CompletionCallback 7)
  = ([Emit "identify" [ABool true; AFun EmptyCallback]; Call (CompletionCallback 7)],
     Return tt)
  /\ identifyForwarder (on quietListener lamp) true (CompletionCallback 7)
     = ([Emit "identify" [ABool true; AFun EmptyCallback];
         Invoke 1 [ABool true; AFun EmptyCallback];
         Call (CompletionCallback 7)],
        Return tt).
Proof.
  split.
  - apply (identify_is_forwarded lamp true (CompletionCallback 7)).
    constructor.
  - apply (identify_is_forwarded (on quietListener lamp) true (CompletionCallback 7)).
    repeat constructor.
Defined.

(** C6, as stated, fails twice.  The event is not emitted bare: a
    listener is called with the pairing flag and an empty callback.  And
    the completion callback is not reached when a listener raises. *)
Lemma identify_payload_and_raising_listener :
  (identifyForwarder (on quietListener lamp) true (CompletionCallback 7)
   = ([Emit "identify" [ABool true; AFun EmptyCallback];
       Invoke 1 [ABool true; AFun EmptyCallback];
       Call (CompletionCallback 7)],
      Return tt)
   /\ identifyForwarder (on failingListener lamp) true (CompletionCallback 7)
      = ([Emit "identify" [ABool true; AFun EmptyCallback];
          Invoke 2 [ABool true; AFun EmptyCallback]],
         Throw (Error "listener failed")))
  /\ ~ (forall (h : t) (paired : bool) (callback : Callback),
          (identifyForwarder h paired callback).1
          = (Emit IDENTIFY [] :: map (fun l => Invoke (listenerId l) []) (listeners h)
               ++ [Call callback])%list)
  /\ ~ (forall (h : t) (paired : bool) (callback : Callback),
          In (Call callback) (identifyForwarder h paired callback).1).
Proof.
  split; [split; reflexivity |]. split.
  - intros claim.
    specialize (claim (on quietListener lamp) true (CompletionCallback 7)).
    vm_compute in claim. discriminate claim.
  - intros claim.
    specialize (claim (on failingListener lamp) true (CompletionCallback 7)).
    vm_compute in claim. intuition discriminate.
Qed.

End Identify.

(* ===================================================================== *)
(** ** Entry-point resolution                                             *)
(* ===================================================================== *)

Section EntryPoint.

Import PackageJSON Plugin.

(** [selectExport] returns the first truthy entry among import, require,
    node, default, and otherwise whatever is under the root subpath. *)
Lemma selectExport_order (entries : gmap string ExportTarget) :
  selectExport entries =
  if truthyTarget (entries !! "import") then entries !! "import"
  else if truthyTarget (entries !! "require") then entries !! "require"
  else if truthyTarget (entries !! "node") then entries !! "node"
  else if truthyTarget (entries !! "default") then entries !! "default"
  else entries !! ".".
Proof.
  unfold selectExport, orTarget.
  destruct (truthyTarget (entries !! "import")) eqn:Hi;
    destruct (truthyTarget (entries !! "require")) eqn:Hr;
    destruct (truthyTarget (entries !! "node")) eqn:Hn;
    destruct (truthyTarget (entries !! "default")) eqn:Hd;
    rewrite ?Hi, ?Hr, ?Hn, ?Hd; reflexivity.
Qed.

(** A non-empty string [exports] is the entry point, whatever [main] is. *)
Lemma resolveMain_exports_string (packageJSON : PackageJSON.t) (p : string) :
  exports packageJSON = Some (ExportsPath p) -> p <> "" ->
  resolveMain packageJSON = Return p.
Proof.
  intros He Hp. unfold resolveMain. rewrite He. cbn.
  destruct (String.eqb_spec p ""); [done |]. cbn.
  destruct (String.eqb_spec p ""); [done | reflexivity].
Qed.

(** The fallback is [main] when that is a non-empty string, and
    [./index.js] otherwise. *)
Lemma fallbackMain_cases (packageJSON : PackageJSON.t) :
  fallbackMain packageJSON =
  match PackageJSON.main packageJSON with
  | Some m => if String.eqb m "" then "./index.js" else m
  | None => "./index.js"
  end.
Proof.
  unfold fallbackMain, orStr, truthyStr.
  destruct (PackageJSON.main packageJSON) as [m |]; [| reflexivity].
  by destruct (String.eqb m "").
Qed.

(** Without [exports] (or with an empty string there) the entry point is
    the fallback. *)
Lemma resolveMain_no_exports (packageJSON : PackageJSON.t) :
  truthyExports (exports packageJSON) = false ->
  resolveMain packageJSON = Return (fallbackMain packageJSON).
Proof.
  intros He. unfold resolveMain. rewrite He.
  by destruct (exports packageJSON).
Qed.

(** A table whose selected entry is a non-empty path resolves to it. *)
Lemma resolveMain_table_path (packageJSON : PackageJSON.t) entries (p : string) :
  exports packageJSON = Some (ExportsTable entries) ->
  selectExport entries = Some (Path p) -> p <> "" ->
  resolveMain packageJSON = Return p.
Proof.
  intros He Hs Hp. unfold resolveMain. rewrite He. cbn. rewrite Hs. cbn.
  destruct (String.eqb_spec p ""); [done | reflexivity].
Qed.

(** A table whose selected entry is itself a table: its [import] when
    truthy, else the first truthy of require, node, default, else the
    fallback. *)
Lemma resolveMain_table_nested (packageJSON : PackageJSON.t) entries
    (c : gmap string string) :
  exports packageJSON = Some (ExportsTable entries) ->
  selectExport entries = Some (Conditions c) ->
  resolveMain packageJSON =
  Return (if truthyStr (c !! "import") then default "" (c !! "import")
          else if truthyStr (c !! "require") then default "" (c !! "require")
          else if truthyStr (c !! "node") then default "" (c !! "node")
          else if truthyStr (c !! "default") then default "" (c !! "default")
          else fallbackMain packageJSON).
Proof.
  intros He Hs. unfold resolveMain. rewrite He. cbn. rewrite Hs. cbn.
  unfold orStr.
  destruct (truthyStr (c !! "import")) eqn:Hi;
    destruct (truthyStr (c !! "require")) eqn:Hr;
    destruct (truthyStr (c !! "node")) eqn:Hn;
    destruct (truthyStr (c !! "default")) eqn:Hd;
    rewrite ?Hi, ?Hr, ?Hn, ?Hd; reflexivity.
Qed.

(** A table with none of the five entries: the selected value is
    [undefined], and reading its [import] property raises. *)
Lemma resolveMain_table_unselected (packageJSON : PackageJSON.t) entries :
  exports packageJSON = Some (ExportsTable entries) ->
  selectExport entries = None ->
  exists message, resolveMain packageJSON = Throw (TypeError message).
Proof.
  intros He Hs. unfold resolveMain. rewrite He. cbn. rewrite Hs. eauto.
Qed.

(** C2.  The manifest [subpathOnly] has an [exports] table that names a
    subpath only and a [main]; no entry point is found via [exports], yet
    the constructor does not fall back to [main]: it raises. *)
Theorem subpath_only_exports_raise :
  selectExport {[ "./feature" := Path "./feature.js" ]} = None
  /\ PackageJSON.main subpathOnly = Some "./lib/index.js"
  /\ Plugin.constructor "homebridge-sample" "/plugins/homebridge-sample" subpathOnly None
     = Throw (TypeError "Cannot read properties of undefined (reading 'import')").
Proof. repeat split. Qed.

End EntryPoint.

(* ===================================================================== *)
(** ** Loading and initialization                                         *)
(* ===================================================================== *)

Section Loading.

Import Plugin.

Example bare_constructed :
  constructor "homebridge-sample" "/plugins/homebridge-sample" emptyManifest None
  = Return bare.
Proof. reflexivity. Qed.

(** A descriptor that comes out of the constructor. *)
Lemma constructor_fields name path packageJSON scope p :
  constructor name path packageJSON scope = Return p ->
  loadContext p = Some (LoadContext.mk (shimEngines packageJSON)
                                        (PackageJSON.dependencies packageJSON))
  /\ pluginInitializer p = None
  /\ disabled p = false
  /\ registeredAccessories p = ∅
  /\ registeredPlatforms p = ∅
  /\ activeDynamicPlatforms p = ∅.
Proof.
  unfold constructor. destruct (resolveMain packageJSON); [| discriminate].
  intros [= <-]. repeat split.
Qed.

(** What the shim leaves under [engines.homebridge] when the manifest
    had nothing truthy there. *)
Lemma shimEngines_homebridge (packageJSON : PackageJSON.t) :
  truthyStr (field (PackageJSON.engines packageJSON) "homebridge") = false ->
  truthyStr (field (shimEngines packageJSON) "homebridge")
  = truthyStr (field (PackageJSON.peerDependencies packageJSON) "homebridge")
  /\ (forall range,
        field (PackageJSON.peerDependencies packageJSON) "homebridge" = Some range ->
        field (shimEngines packageJSON) "homebridge" = Some range).
Proof.
  intros He. unfold shimEngines.
  destruct (PackageJSON.peerDependencies packageJSON) as [peers |]; cbn.
  - rewrite He. cbn. destruct (peers !! "homebridge") as [r |] eqn:Hp.
    + rewrite lookup_insert_eq. split; [reflexivity | done].
    + rewrite lookup_delete_eq. split; [reflexivity | done].
  - split; [exact He | done].
Qed.

Lemma loadGate_engines_missing (host : Host) (p : t) (context : LoadContext.t) :
  loadContext p = Some context ->
  truthyStr (field (LoadContext.engines context) "homebridge") = false ->
  loadGate host p = (Throw (enginesMissing p), setLoadContext None p, []).
Proof.
  intros Hc He. unfold loadGate. rewrite Hc.
  destruct (LoadContext.engines context) as [engines |]; [| reflexivity].
  cbn in He. rewrite He. reflexivity.
Qed.

Lemma loadGate_passes (host : Host) (p : t) (context : LoadContext.t) (range : string) :
  loadContext p = Some context ->
  field (LoadContext.engines context) "homebridge" = Some range ->
  range <> "" ->
  exists request logs,
    loadGate host p = (Return request, setLoadContext None p, logs).
Proof.
  intros Hc He Hr. unfold loadGate. rewrite Hc.
  destruct (LoadContext.engines context) as [engines |]; [| discriminate He].
  cbn in He. rewrite He. cbn.
  destruct (String.eqb_spec range ""); [done |]. cbn. eauto.
Qed.

Lemma loadGate_absent (host : Host) (p : t) :
  loadContext p = None -> loadGate host p = (Throw illegalState, p, []).
Proof. intros H. unfold loadGate. by rewrite H. Qed.

(** [load] in terms of its two halves. *)
Lemma load_gate_failed (host : Host) (p p' : t) e logs :
  loadGate host p = (Throw e, p', logs) ->
  load host p = (Throw e, p', Logged <$> logs).
Proof. intros H. unfold load. by rewrite H. Qed.

Lemma load_gate_passed (host : Host) (p p' : t) request logs :
  loadGate host p = (Return request, p', logs) ->
  load host p =
  match loadModule host request with
  | Throw e => (Throw e, p', (Logged <$> logs) ++ [Imported request])%list
  | Return pluginModules =>
      ((loadExtract pluginModules p').1, (loadExtract pluginModules p').2,
       (Logged <$> logs) ++ [Imported request])%list
  end.
Proof.
  intros H. unfold load. rewrite H.
  destruct (loadModule host request) as [m | e]; [| reflexivity].
  by destruct (loadExtract m p').
Qed.

(** The gate discards the load context whatever its outcome. *)
Lemma loadGate_discards (host : Host) (p : t) :
  loadContext (loadGate host p).1.2 = None.
Proof.
  unfold loadGate. destruct (loadContext p) as [context |] eqn:Hc; [| exact Hc].
  destruct (LoadContext.engines context) as [engines |]; [| reflexivity].
  destruct (truthyStr (engines !! "homebridge")); reflexivity.
Qed.

Lemma loadExtract_context (m : ModuleExports) (p : t) :
  loadContext (loadExtract m p).2 = loadContext p.
Proof. destruct m as [f | [f |] |]; reflexivity. Qed.

Lemma load_discards (host : Host) (p : t) :
  loadContext (load host p).1.2 = None.
Proof.
  pose proof (loadGate_discards host p) as Hg.
  destruct (loadGate host p) as [[[request | e] p'] logs] eqn:Hgate; cbn in Hg.
  - rewrite (load_gate_passed _ _ _ _ _ Hgate).
    destruct (loadModule host request); cbn; [| exact Hg].
    by rewrite loadExtract_context.
  - by rewrite (load_gate_failed _ _ _ _ _ Hgate).
Qed.

(** C3.  Take a descriptor built from a manifest with no (non-empty)
    [engines.homebridge].  If the manifest has no (non-empty) homebridge
    peer dependency either, [load] fails with the error that names the
    missing engines entry, and nothing was imported.  If it has one, the
    constructor copied its range to [engines.homebridge]: the fatal check
    passes and [load] goes on to request the module. *)
Theorem host_requirement_gate (host : Host) (name path : string)
    (packageJSON : PackageJSON.t) (scope : option string) (p : t) :
  constructor name path packageJSON scope = Return p ->
  truthyStr (field (PackageJSON.engines packageJSON) "homebridge") = false ->
  (truthyStr (field (PackageJSON.peerDependencies packageJSON) "homebridge") = false ->
     load host p = (Throw (enginesMissing p), setLoadContext None p, []))
  /\ (forall range,
        field (PackageJSON.peerDependencies packageJSON) "homebridge" = Some range ->
        range <> "" ->
        (exists context,
            loadContext p = Some context
            /\ field (LoadContext.engines context) "homebridge" = Some range)
        /\ exists request logs,
             loadGate host p = (Return request, setLoadContext None p, logs)
             /\ In (Imported request) (load host p).2).
Proof.
  intros Hnew Hengines.
  destruct (constructor_fields _ _ _ _ _ Hnew) as (Hctx & _).
  destruct (shimEngines_homebridge packageJSON Hengines) as (Htruthy & Hcopy).
  split.
  - intros Hpeer.
    apply (load_gate_failed host p _ _ []), (loadGate_engines_missing host p _ Hctx).
    cbn. by rewrite Htruthy.
  - intros range Hpeer Hrange.
    pose proof (Hcopy range Hpeer) as Hshim.
    split; [eexists; split; [exact Hctx | exact Hshim] |].
    destruct (loadGate_passes host p _ range Hctx Hshim Hrange) as (request & logs & Hgate).
    exists request, logs. split; [exact Hgate |].
    rewrite (load_gate_passed _ _ _ _ _ Hgate).
    destruct (loadModule host request); cbn; apply in_or_app; right; left; reflexivity.
Qed.

Lemma host_requirement_gate_witness :
  load sampleHost bare = (Throw (enginesMissing bare), setLoadContext None bare, [])
  /\ exists p request,
       constructor "homebridge-sample" "/plugins/homebridge-sample" peerOnly None = Return p
       /\ (exists context,
             loadContext p = Some context
             /\ field (LoadContext.engines context) "homebridge" = Some "^1.6.0")
       /\ In (Imported request) (load sampleHost p).2.
Proof.
  split.
  - apply (host_requirement_gate sampleHost "homebridge-sample"
             "/plugins/homebridge-sample" emptyManifest None bare);
      reflexivity.
  - destruct (constructor "homebridge-sample" "/plugins/homebridge-sample" peerOnly None)
      as [p | e] eqn:Hnew; [| discriminate Hnew].
    destruct (host_requirement_gate sampleHost _ _ peerOnly None p Hnew eq_refl)
      as (_ & Hshim).
    destruct (Hshim "^1.6.0" eq_refl) as (Hrange & request & logs & _ & Himported);
      [discriminate |].
    exists p, request. split; [reflexivity |]. split; [exact Hrange | exact Himported].
Defined.

(** C9, as amended.  [load] discards the load context as its first
    action: it is absent when the module is requested (where an ES-module
    load is suspended) and when [load] ends, whether [load] succeeds or
    fails.  A later [load] on the same descriptor finds no load context
    and fails the state assertion without importing anything.  The
    constructor is what sets the load context. *)
Theorem load_context_is_discarded_first (host host' : Host) (p : t) :
  loadContext (loadGate host p).1.2 = None
  /\ loadContext (load host p).1.2 = None
  /\ load host' (load host p).1.2 = (Throw illegalState, (load host p).1.2, [])
  /\ (forall name path packageJSON scope,
        constructor name path packageJSON scope = Return p ->
        is_Some (loadContext p)).
Proof.
  split; [apply loadGate_discards |].
  split; [apply load_discards |].
  split.
  - apply (load_gate_failed _ _ _ _ []), loadGate_absent, load_discards.
  - intros name path packageJSON scope Hnew.
    destruct (constructor_fields _ _ _ _ _ Hnew) as (-> & _). eauto.
Qed.

Lemma load_context_is_discarded_first_witness :
  is_Some (loadContext bare)
  /\ loadContext (load sampleHost bare).1.2 = None
  /\ load sampleHost (load sampleHost bare).1.2
     = (Throw illegalState, (load sampleHost bare).1.2, []).
Proof.
  destruct (load_context_is_discarded_first sampleHost sampleHost bare)
    as (_ & Hafter & Hsecond & Hset).
  split; [| split; [exact Hafter | exact Hsecond]].
  apply (Hset "homebridge-sample" "/plugins/homebridge-sample" emptyManifest None).
  reflexivity.
Defined.

(** C9, as stated, fails.  On [bare] the load stops at the version gate,
    long before any initializer is extracted; nothing was imported, and
    the load context the constructor had set is already gone. *)
Lemma load_context_gone_before_extraction :
  (is_Some (loadContext bare)
   /\ load sampleHost bare
      = (Throw (enginesMissing bare), setLoadContext None bare, [])
   /\ loadContext (setLoadContext None bare) = None)
  /\ ~ (forall (host : Host) (p p' : t) (e : Exn) (effects : list Effect),
          load host p = (Throw e, p', effects) ->
          (forall request, ~ In (Imported request) effects) ->
          loadContext p' = loadContext p).
Proof.
  split.
  - split; [eexists; reflexivity |]. split; reflexivity.
  - intros claim.
    specialize (claim sampleHost bare (setLoadContext None bare)
                      (enginesMissing bare) [] eq_refl).
    cbn in claim. discriminate claim. intros request [].
Qed.

(** C8.  Without a stored initializer [initialize] raises the usage error
    and leaves the descriptor as it was; this is the state of a descriptor
    fresh from the constructor, and a failed [load] stores nothing.  A
    [load] that succeeds has stored the function the module exports
    (directly or as [default]); from then on [initialize(api)] is the
    call of that function on [api]: same value, same failure. *)
Theorem initialize_contract (invoke : Invoke) (host : Host) (api : API) (p : t) :
  (pluginInitializer p = None -> initialize invoke api p = (Throw notLoaded, p))
  /\ (forall f, pluginInitializer p = Some f ->
                initialize invoke api p = invoke f api p)
  /\ (forall name path packageJSON scope,
        constructor name path packageJSON scope = Return p ->
        initialize invoke api p = (Throw notLoaded, p))
  /\ (forall e p' effects,
        load host p = (Throw e, p', effects) ->
        pluginInitializer p' = pluginInitializer p)
  /\ (forall p' effects,
        load host p = (Return tt, p', effects) ->
        exists f request,
          In (Imported request) effects
          /\ (loadModule host request = Return (ModuleFunction f)
              \/ loadModule host request = Return (ModuleObject (Some f)))
          /\ pluginInitializer p' = Some f
          /\ initialize invoke api p' = invoke f api p').
Proof.
  assert (Hnone : pluginInitializer p = None ->
                  initialize invoke api p = (Throw notLoaded, p))
    by (intros H; unfold initialize; by rewrite H).
  split; [exact Hnone |].
  split; [intros f H; unfold initialize; by rewrite H |].
  split.
  { intros name path packageJSON scope Hnew. apply Hnone.
    by destruct (constructor_fields _ _ _ _ _ Hnew) as (_ & -> & _). }
  assert (Hgate : pluginInitializer (loadGate host p).1.2 = pluginInitializer p).
  { unfold loadGate. destruct (loadContext p) as [context |]; [| reflexivity].
    destruct (LoadContext.engines context) as [engines |]; [| reflexivity].
    destruct (truthyStr (engines !! "homebridge")); reflexivity. }
  destruct (loadGate host p) as [[[request | e0] p0] logs] eqn:Hg; cbn in Hgate.
  - rewrite (load_gate_passed _ _ _ _ _ Hg).
    destruct (loadModule host request) as [m | e1] eqn:Hm.
    + split.
      * intros e p' effects H. destruct m as [f | [f |] |]; cbn in H;
          try discriminate H; injection H as <- <- <-; exact Hgate.
      * intros p' effects H. destruct m as [f | [f |] |]; cbn in H;
          try discriminate H; injection H as <- <-;
          exists f, request; (split; [apply in_or_app; right; left; reflexivity |]);
          (split; [rewrite Hm; tauto |]); split; reflexivity.
    + split.
      * intros e p' effects [= <- <- <-]. exact Hgate.
      * intros p' effects H. discriminate H.
  - rewrite (load_gate_failed _ _ _ _ _ Hg). split.
    + intros e p' effects [= <- <- <-]. exact Hgate.
    + intros p' effects H. discriminate H.
Qed.

Lemma initialize_contract_witness :
  initialize registeringInvoke (Api 0) bare = (Throw notLoaded, bare)
  /\ exists p p' effects,
       constructor "homebridge-sample" "/plugins/homebridge-sample" peerOnly None = Return p
       /\ load sampleHost p = (Return tt, p', effects)
       /\ (initialize registeringInvoke (Api 0) p').1 = Return (Pending 0)
       /\ registeredAccessories (initialize registeringInvoke (Api 0) p').2 !! "Switch"
          = Some (AccessoryCtor 1)
       /\ (initialize failingInvoke (Api 0) p').1
          = Throw (Foreign (JStr "initializer failed")).
Proof.
  split.
  - apply (initialize_contract registeringInvoke sampleHost (Api 0) bare).
    reflexivity.
  - destruct (constructor "homebridge-sample" "/plugins/homebridge-sample" peerOnly None)
      as [p | e] eqn:Hnew; [| discriminate Hnew].
    destruct (load sampleHost p) as [[[[] | e] p'] effects] eqn:Hload;
      [| vm_compute in Hnew; injection Hnew as <-; discriminate Hload].
    exists p, p', effects. split; [reflexivity |]. split; [exact Hload |].
    destruct (initialize_contract registeringInvoke sampleHost (Api 0) p)
      as (_ & _ & _ & _ & Hok).
    destruct (Hok p' effects Hload) as (f & request & _ & _ & _ & Hinit).
    destruct (initialize_contract failingInvoke sampleHost (Api 0) p)
      as (_ & _ & _ & _ & Hok').
    destruct (Hok' p' effects Hload) as (f' & request' & _ & _ & _ & Hinit').
    rewrite Hinit, Hinit'.
    vm_compute in Hnew. injection Hnew as <-.
    vm_compute in Hload. injection Hload as <- <-.
    repeat split.
Defined.

End Loading.

(* ===================================================================== *)
(** ** Registries and dynamic platforms                                   *)
(* ===================================================================== *)

Section Registries.

Import Plugin.

(** A name that is present is rejected and nothing changes. *)
Lemma registerAccessory_present (p : t) (name : string)
    (stored constructor : AccessoryPluginConstructor) :
  registeredAccessories p !! name = Some stored ->
  registerAccessory name constructor p = (Throw (duplicateAccessory p name), p, []).
Proof. intros H. unfold registerAccessory. by rewrite H. Qed.

Lemma registerPlatform_present (p : t) (name : string)
    (stored constructor : PlatformPluginConstructor) :
  registeredPlatforms p !! name = Some stored ->
  registerPlatform name constructor p = (Throw (duplicatePlatform p name), p, []).
Proof. intros H. unfold registerPlatform. by rewrite H. Qed.

(** A fresh name is stored; only the log line depends on [disabled]. *)
Lemma registerAccessory_fresh (p : t) (name : string)
    (constructor : AccessoryPluginConstructor) :
  registeredAccessories p !! name = None ->
  registerAccessory name constructor p
  = (Return tt,
     setRegisteredAccessories (<[name := constructor]> (registeredAccessories p)) p,
     if disabled p then []
     else [mkLog Info "Registering accessory '%s'"
                 [getPluginIdentifier p +:+ "." +:+ name]]).
Proof. intros H. unfold registerAccessory. rewrite H. by destruct (disabled p). Qed.

Lemma registerPlatform_fresh (p : t) (name : string)
    (constructor : PlatformPluginConstructor) :
  registeredPlatforms p !! name = None ->
  registerPlatform name constructor p
  = (Return tt,
     setRegisteredPlatforms (<[name := constructor]> (registeredPlatforms p)) p,
     if disabled p then []
     else [mkLog Info "Registering platform '%s'"
                 [getPluginIdentifier p +:+ "." +:+ name]]).
Proof. intros H. unfold registerPlatform. rewrite H. by destruct (disabled p). Qed.

(** C4.  On any descriptor, disabled or not, registering a fresh name
    stores the constructor; a second registration of the same name raises
    the duplicate-registration error, changes nothing, and the name still
    maps to the first constructor.  The same holds for platforms. *)
Theorem duplicate_registration (p : t) (name : string) :
  (forall first second : AccessoryPluginConstructor,
     registeredAccessories p !! name = None ->
     (registerAccessory name first p).1.1 = Return tt
     /\ registeredAccessories (registerAccessory name first p).1.2 !! name = Some first
     /\ registerAccessory name second (registerAccessory name first p).1.2
        = (Throw (duplicateAccessory p name), (registerAccessory name first p).1.2, []))
  /\ (forall first second : PlatformPluginConstructor,
        registeredPlatforms p !! name = None ->
        (registerPlatform name first p).1.1 = Return tt
        /\ registeredPlatforms (registerPlatform name first p).1.2 !! name = Some first
        /\ registerPlatform name second (registerPlatform name first p).1.2
           = (Throw (duplicatePlatform p name), (registerPlatform name first p).1.2, [])).
Proof.
  split; intros first second Hfresh.
  - rewrite (registerAccessory_fresh _ _ _ Hfresh). cbn [fst snd].
    assert (Hin : registeredAccessories
                    (setRegisteredAccessories
                       (<[name := first]> (registeredAccessories p)) p) !! name
                  = Some first) by apply lookup_insert_eq.
    split; [reflexivity |]. split; [exact Hin |].
    by rewrite (registerAccessory_present _ _ _ second Hin).
  - rewrite (registerPlatform_fresh _ _ _ Hfresh). cbn [fst snd].
    assert (Hin : registeredPlatforms
                    (setRegisteredPlatforms
                       (<[name := first]> (registeredPlatforms p)) p) !! name
                  = Some first) by apply lookup_insert_eq.
    split; [reflexivity |]. split; [exact Hin |].
    by rewrite (registerPlatform_present _ _ _ second Hin).
Qed.

Lemma duplicate_registration_witness :
  (registerAccessory "Switch" (AccessoryCtor 1) (setDisabled true bare)).1.1 = Return tt
  /\ registeredAccessories
       (registerAccessory "Switch" (AccessoryCtor 1) (setDisabled true bare)).1.2
       !! "Switch" = Some (AccessoryCtor 1)
  /\ registerAccessory "Switch" (AccessoryCtor 2)
       (registerAccessory "Switch" (AccessoryCtor 1) (setDisabled true bare)).1.2
     = (Throw (duplicateAccessory (setDisabled true bare) "Switch"),
        (registerAccessory "Switch" (AccessoryCtor 1) (setDisabled true bare)).1.2, []).
Proof.
  apply (proj1 (duplicate_registration (setDisabled true bare) "Switch")).
  reflexivity.
Defined.

(** [assignDynamicPlatform] touches one list only. *)
Lemma assignDynamicPlatform_lookup (host : Host) (identifier name : string)
    (instance : DynamicPlatformPlugin) (p : t) :
  activeDynamicPlatforms (assignDynamicPlatform host identifier instance p) !! name
  = if decide (getPlatformName host identifier = name)
    then Some (instance :: default [] (activeDynamicPlatforms p !! name))
    else activeDynamicPlatforms p !! name.
Proof.
  unfold assignDynamicPlatform. cbn. rewrite lookup_insert.
  case_decide; by subst.
Qed.

Lemma assignAll_other (host : Host) (name : string)
    (calls : list (string * DynamicPlatformPlugin)) (p : t) :
  Forall (fun call => getPlatformName host call.1 <> name) calls ->
  activeDynamicPlatforms (assignAll host calls p) !! name
  = activeDynamicPlatforms p !! name.
Proof.
  intros Hcalls. revert p.
  induction Hcalls as [| [identifier instance] calls Hne _ IH]; intros p;
    [reflexivity |].
  cbn [assignAll]. rewrite IH, assignDynamicPlatform_lookup.
  cbn in Hne. by case_decide.
Qed.

(** C5.  Let [identifier] normalize to the platform name [P] (a bare
    name normalizes to itself).  Each [assignDynamicPlatform] puts the
    instance in front of [P]'s list: after A then B the active instance is
    B, after C it is C, and the list is C, B, A followed by what was there
    before.  On a descriptor fresh from the constructor, as long as no
    assignment normalizes to [P], there is no active instance for [P]. *)
Theorem dynamic_platform_stacking (host : Host) (p : t) (identifier P : string)
    (A B C : DynamicPlatformPlugin) :
  getPlatformName host identifier = P ->
  let older := default [] (activeDynamicPlatforms p !! P) in
  let pA := assignDynamicPlatform host identifier A p in
  let pB := assignDynamicPlatform host identifier B pA in
  let pC := assignDynamicPlatform host identifier C pB in
  activeDynamicPlatforms pA !! P = Some (A :: older)
  /\ getActiveDynamicPlatform P pB = Some B
  /\ activeDynamicPlatforms pB !! P = Some (B :: A :: older)
  /\ getActiveDynamicPlatform P pC = Some C
  /\ activeDynamicPlatforms pC !! P = Some (C :: B :: A :: older)
  /\ (forall name path packageJSON scope fresh calls,
        constructor name path packageJSON scope = Return fresh ->
        Forall (fun call => getPlatformName host call.1 <> P) calls ->
        getActiveDynamicPlatform P (assignAll host calls fresh) = None).
Proof.
  intros HP older pA pB pC.
  assert (HA : activeDynamicPlatforms pA !! P = Some (A :: older)).
  { unfold pA. rewrite assignDynamicPlatform_lookup. by case_decide. }
  assert (HB : activeDynamicPlatforms pB !! P = Some (B :: A :: older)).
  { unfold pB. rewrite assignDynamicPlatform_lookup. case_decide; [| done].
    by rewrite HA. }
  assert (HC : activeDynamicPlatforms pC !! P = Some (C :: B :: A :: older)).
  { unfold pC. rewrite assignDynamicPlatform_lookup. case_decide; [| done].
    by rewrite HB. }
  split; [exact HA |].
  split; [unfold getActiveDynamicPlatform; by rewrite HB |].
  split; [exact HB |].
  split; [unfold getActiveDynamicPlatform; by rewrite HC |].
  split; [exact HC |].
  intros name path packageJSON scope fresh calls Hnew Hcalls.
  unfold getActiveDynamicPlatform. rewrite (assignAll_other _ _ _ _ Hcalls).
  destruct (constructor_fields _ _ _ _ _ Hnew) as (_ & _ & _ & _ & _ & ->).
  by rewrite lookup_empty.
Qed.

Lemma dynamic_platform_stacking_witness :
  getActiveDynamicPlatform "Hue"
    (assignDynamicPlatform sampleHost "homebridge-sample.Hue" (DynamicPlatform 2)
       (assignDynamicPlatform sampleHost "homebridge-sample.Hue" (DynamicPlatform 1) bare))
  = Some (DynamicPlatform 2)
  /\ activeDynamicPlatforms
       (assignDynamicPlatform sampleHost "Hue" (DynamicPlatform 3)
          (assignDynamicPlatform sampleHost "Hue" (DynamicPlatform 2)
             (assignDynamicPlatform sampleHost "Hue" (DynamicPlatform 1) bare)))
       !! "Hue"
     = Some [DynamicPlatform 3; DynamicPlatform 2; DynamicPlatform 1]
  /\ getActiveDynamicPlatform "Hue"
       (assignAll sampleHost [("Nest", DynamicPlatform 4)] bare) = None.
Proof.
  split; [| split].
  - apply (dynamic_platform_stacking sampleHost bare "homebridge-sample.Hue" "Hue"
             (DynamicPlatform 1) (DynamicPlatform 2) (DynamicPlatform 3)).
    reflexivity.
  - apply (dynamic_platform_stacking sampleHost bare "Hue" "Hue"
             (DynamicPlatform 1) (DynamicPlatform 2) (DynamicPlatform 3)).
    reflexivity.
  - apply (proj2 (proj2 (proj2 (proj2 (proj2
             (dynamic_platform_stacking sampleHost bare "Hue" "Hue"
                (DynamicPlatform 1) (DynamicPlatform 2) (DynamicPlatform 3) eq_refl)))))
             "homebridge-sample" "/plugins/homebridge-sample" emptyManifest None bare
             [("Nest", DynamicPlatform 4)] eq_refl).
    repeat constructor. discriminate.
Defined.

End Registries.

(* ===================================================================== *)
(** ** More on handles: renames, persistence, construction, identify      *)
(* ===================================================================== *)

Section HandleBehaviour.

Import PlatformAccessory.

Lemma deserialize_returns hap slot (json : gmap string JValue) h :
  (deserialize hap slot json).1 = Return h ->
  exists a,
    Accessory_deserialize hap json = Return a
    /\ h = {|
        _associatedPlugin := prop json "plugin";
        _associatedPlatform := prop json "platform";
        _associatedHAPAccessory := Accessory.onIdentify Accessory.HandleForwarder a;
        displayName := Accessory.displayName a;
        UUID := Accessory.UUID a;
        category := prop json "category";
        reachable := false;
        context := prop json "context";
        listeners := [];
      |}.
Proof.
  unfold deserialize. destruct (Accessory_deserialize hap json) as [a | e].
  - rewrite constructor_injected. cbn. intros [= <-]. by exists a.
  - discriminate.
Qed.

(** X1.  The name a handle carries when it is serialized is the name
    that comes back, on the handle and on its delegate, whatever name the
    delegate had before, as long as the delegate library decodes the
    record to a delegate with the name it encoded; so a rename through
    [updateDisplayName] with a non-empty name survives persistence, and
    an empty name renames nothing. *)
Theorem rename_survives_round_trip (hap : HapLib) (h : t) (slot : Slot)
    (name : string) (decoded : Accessory.t) :
  Accessory_deserialize hap (serialize hap h).1 = Return decoded ->
  Accessory.displayName decoded
  = Accessory.displayName (_associatedHAPAccessory (serialize hap h).2) ->
  (exists h',
     (deserialize hap slot (serialize hap h).1).1 = Return h'
     /\ displayName h' = displayName h
     /\ Accessory.displayName (_associatedHAPAccessory h') = displayName h)
  /\ (name <> "" -> displayName (updateDisplayName name h) = name)
  /\ updateDisplayName "" h = h.
Proof.
  intros Hdecoded Hname. split; [| split].
  - unfold deserialize. rewrite Hdecoded, constructor_injected.
    eexists. split; [reflexivity |]. cbn in *. by rewrite Hname.
  - intros Hne. unfold updateDisplayName.
    by destruct (String.eqb_spec name "").
  - reflexivity.
Qed.

Lemma rename_survives_round_trip_witness :
  exists h',
    (deserialize validatingHap None
       (serialize validatingHap (updateDisplayName "Bedside lamp" lamp)).1).1 = Return h'
    /\ displayName h' = "Bedside lamp"
    /\ Accessory.displayName (_associatedHAPAccessory h') = "Bedside lamp".
Proof.
  destruct (rename_survives_round_trip validatingHap
              (updateDisplayName "Bedside lamp" lamp) None "Bedside lamp"
              (Accessory.mk "Bedside lamp" "uuid-1" 1 [] []))
    as ((h' & Hd & Hname & Hdelegate) & _); [vm_compute; reflexivity | reflexivity |].
  exists h'. split; [exact Hd |]. split; [exact Hname | exact Hdelegate].
Defined.

(** X2.  [serialize] changes nothing of the handle except the delegate's
    display name; serializing the handle it hands back gives the same
    record and the same handle again; and a handle whose delegate already
    carries its name comes back as it was. *)
Theorem serialize_is_idempotent (hap : HapLib) (h : t) :
  serialize hap (serialize hap h).2 = serialize hap h
  /\ (serialize hap h).2
     = withDelegate (Accessory.setDisplayName (displayName h)
                       (_associatedHAPAccessory h)) h
  /\ (Accessory.displayName (_associatedHAPAccessory h) = displayName h ->
      (serialize hap h).2 = h).
Proof.
  split; [reflexivity |]. split; [reflexivity |].
  intros Hname. destruct h as [pl pf [dn uu ca sv ls] n u c r x l].
  cbn in *. by subst.
Qed.

Lemma serialize_is_idempotent_witness :
  serialize sampleHap (serialize sampleHap lamp).2 = serialize sampleHap lamp
  /\ (serialize sampleHap (serialize sampleHap lamp).2).2 = (serialize sampleHap lamp).2.
Proof.
  destruct (serialize_is_idempotent sampleHap (serialize sampleHap lamp).2)
    as (_ & _ & Hfix).
  split.
  - apply (serialize_is_idempotent sampleHap lamp).
  - apply Hfix. reflexivity.
Defined.

(** X3.  Reachability is not persisted: the record does not depend on
    the [reachable] flag, and every handle that comes out of
    [deserialize] is marked unreachable and has no listener attached. *)
Theorem reachability_is_not_persisted (hap : HapLib) (h : t) (r : bool) :
  (serialize hap (updateReachability r h)).1 = (serialize hap h).1
  /\ (forall slot json h',
        (deserialize hap slot json).1 = Return h' ->
        reachable h' = false /\ listeners h' = []).
Proof.
  split; [reflexivity |].
  intros slot json h' H.
  destruct (deserialize_returns _ _ _ _ H) as (a & _ & ->). by split.
Qed.

Lemma reachability_is_not_persisted_witness :
  exists h',
    (deserialize sampleHap None
       (serialize sampleHap (updateReachability true lamp)).1).1 = Return h'
    /\ reachable (updateReachability true lamp) = true
    /\ reachable h' = false.
Proof.
  destruct (deserialize sampleHap None
              (serialize sampleHap (updateReachability true lamp)).1).1
    as [h' | e] eqn:Hd; [| vm_compute in Hd; discriminate Hd].
  exists h'. split; [reflexivity |]. split; [reflexivity |].
  apply (proj2 (reachability_is_not_persisted sampleHap lamp true) None _ h' Hd).
Defined.

(** X4.  [deserialize] takes plugin, platform, context and category from
    the record and from nowhere else: a key the record lacks reads as
    [undefined].  In particular a record without [category] yields a
    handle whose category is [undefined], whatever category the decoded
    delegate has, and identity comes from the decoded delegate. *)
Theorem deserialize_reads_the_record (hap : HapLib) (slot : Slot)
    (json : gmap string JValue) (h : t) :
  (deserialize hap slot json).1 = Return h ->
  (forall key, json !! key = None -> prop json key = JUndefined)
  /\ _associatedPlugin h = prop json "plugin"
  /\ _associatedPlatform h = prop json "platform"
  /\ context h = prop json "context"
  /\ category h = prop json "category"
  /\ exists a,
       Accessory_deserialize hap json = Return a
       /\ displayName h = Accessory.displayName a
       /\ UUID h = Accessory.UUID a
       /\ Accessory.category (_associatedHAPAccessory h) = Accessory.category a.
Proof.
  intros H. destruct (deserialize_returns _ _ _ _ H) as (a & Ha & ->).
  split; [intros key Hkey; unfold prop; by rewrite Hkey |].
  repeat split. exists a. repeat split. exact Ha.
Qed.

Lemma deserialize_reads_the_record_witness :
  exists h,
    (deserialize lenientHap None {[ "displayName" := JStr "Lamp" ]}).1 = Return h
    /\ _associatedPlugin h = JUndefined
    /\ context h = JUndefined
    /\ category h = JUndefined
    /\ Accessory.category (_associatedHAPAccessory h) = 1.
Proof.
  destruct (deserialize lenientHap None {[ "displayName" := JStr "Lamp" ]}).1
    as [h | e] eqn:Hd; [| vm_compute in Hd; discriminate Hd].
  destruct (deserialize_reads_the_record lenientHap None _ h Hd)
    as (Hmissing & Hplugin & _ & Hcontext & Hcategory & a & Ha & _ & _ & Hdc).
  exists h. split; [reflexivity |].
  split; [rewrite Hplugin; apply Hmissing; reflexivity |].
  split; [rewrite Hcontext; apply Hmissing; reflexivity |].
  split; [rewrite Hcategory; apply Hmissing; reflexivity |].
  rewrite Hdc. vm_compute in Ha. injection Ha as <-. reflexivity.
Defined.

(** X5.  [deserialize] fails exactly when the delegate library rejects
    the record, with the library's error; it then leaves the static slot
    as it found it.  When it returns a handle the slot is empty, whatever
    it held before. *)
Theorem deserialize_fails_with_the_delegate (hap : HapLib) (slot : Slot)
    (json : gmap string JValue) (e : Exn) :
  ((deserialize hap slot json).1 = Throw e <-> Accessory_deserialize hap json = Throw e)
  /\ ((deserialize hap slot json).1 = Throw e -> (deserialize hap slot json).2 = slot)
  /\ (forall h, (deserialize hap slot json).1 = Return h ->
                (deserialize hap slot json).2 = None).
Proof.
  pose proof (deserialize_slot hap slot json) as H.
  destruct (Accessory_deserialize hap json) as [a | e'].
  - destruct H as (h & -> & _). cbn. repeat split; try discriminate.
  - rewrite H. cbn. split; [split; intros [= ->]; reflexivity |].
    split; [reflexivity | discriminate].
Qed.

Lemma deserialize_fails_with_the_delegate_witness :
  deserialize sampleHap (Some (Accessory.mk "Stale" "uuid-0" 1 [] [])) ∅
  = (Throw (Foreign (JStr "malformed accessory record")),
     Some (Accessory.mk "Stale" "uuid-0" 1 [] [])).
Proof.
  pose (slot := Some (Accessory.mk "Stale" "uuid-0" 1 [] [])).
  destruct (deserialize_fails_with_the_delegate sampleHap slot ∅
              (Foreign (JStr "malformed accessory record")))
    as (Hiff & Hslot & _).
  assert (Hthrow : (deserialize sampleHap slot ∅).1
                   = Throw (Foreign (JStr "malformed accessory record")))
    by (apply Hiff; reflexivity).
  specialize (Hslot Hthrow).
  destruct (deserialize sampleHap slot ∅) as [c s']. cbn in *. by subst.
Defined.

(** X6.  The constructor fails only when nothing is injected and
    [new Accessory] fails, and then with that error.  A category of zero
    counts as no category.  A non-zero category is written to the handle
    and to the delegate; without one the handle says [Categories.OTHER]
    and the delegate keeps the category it came with.  A new handle has
    no plugin, no platform, an empty context and no listener. *)
Theorem constructor_category_and_failure (hap : HapLib) (slot : Slot)
    (name uuid : string) :
  (forall category e,
     constructor hap slot name uuid category = Throw e
     <-> slot = None /\ Accessory_new hap name uuid = Throw e)
  /\ constructor hap slot name uuid (Some 0) = constructor hap slot name uuid None
  /\ (forall c h,
        c <> 0 ->
        constructor hap slot name uuid (Some c) = Return h ->
        category h = JNum c
        /\ Accessory.category (_associatedHAPAccessory h) = c)
  /\ (forall h,
        constructor hap slot name uuid None = Return h ->
        category h = JNum (Categories_OTHER hap)
        /\ exists a,
             match slot with
             | Some injected => injected = a
             | None => Accessory_new hap name uuid = Return a
             end
             /\ Accessory.category (_associatedHAPAccessory h) = Accessory.category a)
  /\ (forall category h,
        constructor hap slot name uuid category = Return h ->
        _associatedPlugin h = JUndefined
        /\ _associatedPlatform h = JUndefined
        /\ context h = JObj []
        /\ reachable h = false
        /\ listeners h = []).
Proof.
  split; [| split; [reflexivity | split; [| split]]].
  - intros category e. unfold constructor.
    destruct slot as [injected |]; [split; [discriminate | intros [? _]; discriminate] |].
    destruct (Accessory_new hap name uuid) as [a | e'].
    + split; [discriminate | intros [_ ?]; discriminate].
    + split; [intros [= ->]; by split | intros [_ [= ->]]; reflexivity].
  - intros c h Hc. unfold constructor, truthyCategory.
    destruct (match slot with Some i => Return i | None => _ end) as [a | e];
      [| discriminate].
    destruct (Z.eqb_spec c 0); [done |]. cbn. intros [= <-]. by split.
  - intros h. unfold constructor.
    destruct slot as [injected |].
    + intros [= <-]. split; [reflexivity |]. by exists injected.
    + destruct (Accessory_new hap name uuid) as [a | e]; [| discriminate].
      intros [= <-]. split; [reflexivity |]. by exists a.
  - intros category h. unfold constructor.
    destruct (match slot with Some i => Return i | None => _ end) as [a | e];
      [| discriminate].
    intros [= <-]. repeat split.
Qed.

Lemma constructor_category_and_failure_witness :
  constructor sampleHap None "" "uuid-1" (Some 3)
  = Throw (Foreign (JStr "Accessories must be created with a non-empty displayName."))
  /\ exists h,
       constructor sampleHap None "Fan" "uuid-2" (Some 3) = Return h
       /\ category h = JNum 3
       /\ Accessory.category (_associatedHAPAccessory h) = 3.
Proof.
  destruct (constructor_category_and_failure sampleHap None "" "uuid-1")
    as (Hfail & _).
  destruct (constructor_category_and_failure sampleHap None "Fan" "uuid-2")
    as (_ & _ & Hcat & _).
  split.
  - apply Hfail. split; reflexivity.
  - destruct (constructor sampleHap None "Fan" "uuid-2" (Some 3)) as [h | e] eqn:Hnew;
      [| vm_compute in Hnew; discriminate Hnew].
    exists h. split; [reflexivity |]. apply (Hcat 3 h); [discriminate | exact Hnew].
Defined.

Lemma deliver_until_raise (before after : list Listener) (l : Listener)
    (e : Exn) (args : list Arg) :
  Forall (fun l => raises l = None) before ->
  raises l = Some e ->
  deliver (before ++ l :: after) args
  = ((map (fun l => Invoke (listenerId l) args) before
        ++ [Invoke (listenerId l) args])%list,
     Throw e).
Proof.
  intros Hbefore Hl. induction Hbefore as [| b before Hb _ IH].
  - cbn. by rewrite Hl.
  - cbn [app deliver map]. rewrite Hb, IH. reflexivity.
Qed.

(** X7.  When a listener raises during an identify notification, the
    listeners registered before it have been called in order, the ones
    registered after it are not called, the completion callback is not
    called, and the listener's exception leaves the forwarder. *)
Theorem identify_stops_at_raising_listener (h : t) (before after : list Listener)
    (l : Listener) (e : Exn) (paired : bool) (callback : Callback) :
  listeners h = (before ++ l :: after)%list ->
  Forall (fun l => raises l = None) before ->
  raises l = Some e ->
  identifyForwarder h paired callback
  = ((Emit IDENTIFY [ABool paired; AFun EmptyCallback]
        :: map (fun l => Invoke (listenerId l) [ABool paired; AFun EmptyCallback]) before
        ++ [Invoke (listenerId l) [ABool paired; AFun EmptyCallback]])%list,
     Throw e).
Proof.
  intros Hls Hbefore Hl. unfold identifyForwarder, emit.
  rewrite Hls, (deliver_until_raise _ _ _ _ _ Hbefore Hl). reflexivity.
Qed.

Lemma identify_stops_at_raising_listener_witness :
  identifyForwarder watched false (CompletionCallback 9)
  = ([Emit "identify" [ABool false; AFun EmptyCallback];
      Invoke 1 [ABool false; AFun EmptyCallback];
      Invoke 2 [ABool false; AFun EmptyCallback]],
     Throw (Error "listener failed")).
Proof.
  apply (identify_stops_at_raising_listener watched [quietListener]
           [mkListener 3 None] failingListener (Error "listener failed")
           false (CompletionCallback 9));
    [reflexivity | repeat constructor | reflexivity].
Defined.

End HandleBehaviour.

(* ===================================================================== *)
(** ** More on the manifest: entry point, module format, engines          *)
(* ===================================================================== *)

Section Manifest.

Import PackageJSON Plugin.

Lemma length_append (a b : string) :
  String.length (a +:+ b) = (String.length a + String.length b)%nat.
Proof. induction a as [| c a IH]; [reflexivity |]. simpl. by rewrite IH. Qed.

Lemma substring_all (s : string) : substring 0 (String.length s) s = s.
Proof. induction s as [| c s IH]; [reflexivity |]. simpl. by rewrite IH. Qed.

Lemma substring_append (a b : string) :
  substring (String.length a) (String.length b) (a +:+ b) = b.
Proof. induction a as [| c a IH]; [apply substring_all | exact IH]. Qed.

Lemma substring_split (s : string) (m : nat) :
  (m <= String.length s)%nat ->
  s = substring 0 m s +:+ substring m (String.length s - m) s.
Proof.
  revert m. induction s as [| c s IH]; intros m Hm.
  - simpl in Hm. assert (m = 0%nat) as -> by lia. reflexivity.
  - destruct m as [| m].
    + simpl. by rewrite substring_all.
    + simpl in *.
      change (String c s
              = String c (substring 0 m s +:+ substring m (String.length s - m) s)).
      f_equal. apply IH. lia.
Qed.

(** [endsWith] is the suffix test. *)
Lemma endsWith_spec (s suffix : string) :
  endsWith s suffix = true <-> exists stem, s = stem +:+ suffix.
Proof.
  unfold endsWith. split.
  - intros H. apply andb_true_iff in H as [Hle Heq].
    apply Nat.leb_le in Hle. apply String.eqb_eq in Heq.
    exists (substring 0 (String.length s - String.length suffix) s).
    pose proof (substring_split s (String.length s - String.length suffix)) as Hs.
    replace (String.length s - (String.length s - String.length suffix))%nat
      with (String.length suffix) in Hs by lia.
    rewrite Heq in Hs. apply Hs. lia.
  - intros [stem ->]. rewrite length_append. apply andb_true_iff. split.
    + apply Nat.leb_le. lia.
    + apply String.eqb_eq.
      replace (String.length stem + String.length suffix - String.length suffix)%nat
        with (String.length stem) by lia.
      apply substring_append.
Qed.

Lemma constructor_main name path packageJSON scope p :
  constructor name path packageJSON scope = Return p ->
  resolveMain packageJSON = Return (Plugin.main p)
  /\ isESM p = resolveIsESM (Plugin.main p) packageJSON
  /\ pluginName p = name /\ pluginPath p = path /\ Plugin.scope p = scope.
Proof.
  unfold constructor. destruct (resolveMain packageJSON); [| discriminate].
  intros [= <-]. repeat split.
Qed.

(** X8.  A descriptor is an ES module exactly when its entry point ends
    in [.mjs], or ends in [.js] while the manifest's [type] is the string
    [module]. *)
Theorem esm_classification (name path : string) (packageJSON : PackageJSON.t)
    (scope : option string) (p : Plugin.t) :
  constructor name path packageJSON scope = Return p ->
  (isESM p = true
   <-> (exists stem, Plugin.main p = stem +:+ ".mjs")
       \/ ((exists stem, Plugin.main p = stem +:+ ".js")
           /\ PackageJSON.type packageJSON = Some "module")).
Proof.
  intros Hnew. destruct (constructor_main _ _ _ _ _ Hnew) as (_ & -> & _).
  unfold resolveIsESM. rewrite orb_true_iff, andb_true_iff, !endsWith_spec.
  split.
  - intros [Hm | [Hj Ht]]; [by left | right]. split; [exact Hj |].
    destruct (PackageJSON.type packageJSON) as [ty |]; [| discriminate Ht].
    apply String.eqb_eq in Ht. by subst.
  - intros [Hm | [Hj ->]]; [by left | right]. by split.
Qed.

Lemma esm_classification_witness :
  exists p,
    constructor "homebridge-sample" "/plugins/homebridge-sample" dualFormat None = Return p
    /\ Plugin.main p = "./dist/index.mjs"
    /\ isESM p = true.
Proof.
  destruct (constructor "homebridge-sample" "/plugins/homebridge-sample" dualFormat None)
    as [p | e] eqn:Hnew; [| vm_compute in Hnew; discriminate Hnew].
  pose proof (esm_classification _ _ _ _ p Hnew) as Hesm.
  vm_compute in Hnew. injection Hnew as <-.
  eexists. split; [reflexivity |]. split; [reflexivity |].
  apply Hesm. left. by exists "./dist/index".
Defined.

Lemma fallbackMain_nonempty (packageJSON : PackageJSON.t) :
  fallbackMain packageJSON <> "".
Proof.
  rewrite fallbackMain_cases.
  destruct (PackageJSON.main packageJSON) as [m |]; [| discriminate].
  destruct (String.eqb_spec m ""); [discriminate | done].
Qed.

Lemma truthyStr_nonempty (o : option string) :
  truthyStr o = true -> default "" o <> "".
Proof.
  destruct o as [s |]; [| discriminate]. cbn.
  by destruct (String.eqb_spec s "").
Qed.

Lemma resolveMain_cases (packageJSON : PackageJSON.t) :
  match exports packageJSON with
  | Some (ExportsTable entries) =>
      match selectExport entries with
      | None =>
          resolveMain packageJSON
          = Throw (TypeError "Cannot read properties of undefined (reading 'import')")
      | Some _ => exists m, resolveMain packageJSON = Return m
      end
  | _ => exists m, resolveMain packageJSON = Return m
  end.
Proof.
  unfold resolveMain.
  destruct (exports packageJSON) as [[s | entries] |]; cbn.
  - repeat case_match; eauto; discriminate.
  - destruct (selectExport entries) as [[s | c] |]; cbn;
      repeat case_match; eauto; discriminate.
  - eauto.
Qed.

(** X9.  The constructor fails for one shape of manifest only: [exports]
    is a table in which none of import, require, node, default is usable
    and the root subpath is missing; the failure is a [TypeError].  Every
    descriptor it does build has a non-empty entry point. *)
Theorem entry_point_is_never_empty (name path : string)
    (packageJSON : PackageJSON.t) (scope : option string) :
  (forall p, constructor name path packageJSON scope = Return p -> Plugin.main p <> "")
  /\ (forall e,
        constructor name path packageJSON scope = Throw e
        <-> exists entries,
              exports packageJSON = Some (ExportsTable entries)
              /\ selectExport entries = None
              /\ e = TypeError "Cannot read properties of undefined (reading 'import')").
Proof.
  split.
  - intros p Hnew. destruct (constructor_main _ _ _ _ _ Hnew) as (Hmain & _).
    unfold resolveMain in Hmain.
    destruct (match exports packageJSON with Some _ => _ | None => _ end)
      as [m |]; [| discriminate Hmain].
    destruct (truthyStr m) eqn:Hm; injection Hmain as <-.
    + by apply truthyStr_nonempty.
    + apply fallbackMain_nonempty.
  - intros e. pose proof (resolveMain_cases packageJSON) as Hcases.
    unfold constructor.
    destruct (exports packageJSON) as [[s | entries] |].
    + destruct Hcases as (m & ->). split; [discriminate | intros (? & [=] & _)].
    + destruct (selectExport entries) as [target |] eqn:Hsel.
      * destruct Hcases as (m & ->).
        split; [discriminate | intros (? & [= <-] & ? & _); congruence].
      * rewrite Hcases. split; [intros [= <-]; by exists entries |].
        by intros (? & _ & _ & ->).
    + destruct Hcases as (m & ->). split; [discriminate | intros (? & [=] & _)].
Qed.

Lemma entry_point_is_never_empty_witness :
  exists p,
    constructor "homebridge-sample" "/plugins/homebridge-sample" typesOnly None = Return p
    /\ Plugin.main p <> "".
Proof.
  destruct (constructor "homebridge-sample" "/plugins/homebridge-sample" typesOnly None)
    as [p | e] eqn:Hnew; [| vm_compute in Hnew; discriminate Hnew].
  exists p. split; [reflexivity |].
  apply (proj1 (entry_point_is_never_empty "homebridge-sample"
                  "/plugins/homebridge-sample" typesOnly None) p Hnew).
Defined.

(** X10.  In an [exports] table a non-empty [import] entry takes
    precedence: a path under [import] is the entry point whatever the
    other entries and [main] say, and when the selected entry is itself a
    table its non-empty [import] is the entry point whatever its
    require, node and default say. *)
Theorem import_condition_wins (packageJSON : PackageJSON.t)
    (entries : gmap string ExportTarget) (p : string) :
  exports packageJSON = Some (ExportsTable entries) ->
  p <> "" ->
  (entries !! "import" = Some (Path p) -> resolveMain packageJSON = Return p)
  /\ (forall c,
        entries !! "import" = Some (Conditions c) ->
        c !! "import" = Some p ->
        resolveMain packageJSON = Return p)
  /\ (forall c,
        selectExport entries = Some (Conditions c) ->
        c !! "import" = Some p ->
        resolveMain packageJSON = Return p).
Proof.
  intros He Hp.
  assert (Htruthy : truthyStr (Some p) = true)
    by (cbn; by destruct (String.eqb_spec p "")).
  assert (Hnested : forall c, selectExport entries = Some (Conditions c) ->
                              c !! "import" = Some p ->
                              resolveMain packageJSON = Return p).
  { intros c Hsel Hc. rewrite (resolveMain_table_nested _ _ _ He Hsel), Hc.
    by rewrite Htruthy. }
  split; [| split; [| exact Hnested]].
  - intros Hi. apply (resolveMain_table_path _ _ _ He); [| exact Hp].
    rewrite selectExport_order, Hi. cbn. by destruct (String.eqb_spec p "").
  - intros c Hi. apply Hnested. by rewrite selectExport_order, Hi.
Qed.

Lemma import_condition_wins_witness :
  resolveMain dualFormat = Return "./dist/index.mjs".
Proof.
  apply (proj1 (import_condition_wins dualFormat
                  {[ "import" := Path "./dist/index.mjs";
                     "require" := Path "./dist/index.cjs" ]}
                  "./dist/index.mjs" eq_refl ltac:(discriminate))).
  reflexivity.
Defined.

(** X11.  The entry point is the fallback, [main] when that is a
    non-empty string and [./index.js] otherwise, in each of these cases:
    [exports] is missing or the empty string; the selected entry of the
    table is the empty string; the selected entry is a table in which
    import, require, node and default are all missing or empty. *)
Theorem entry_point_falls_back_to_main (packageJSON : PackageJSON.t) :
  (exports packageJSON = None \/ exports packageJSON = Some (ExportsPath "") ->
   resolveMain packageJSON = Return (fallbackMain packageJSON))
  /\ (forall entries,
        exports packageJSON = Some (ExportsTable entries) ->
        selectExport entries = Some (Path "") ->
        resolveMain packageJSON = Return (fallbackMain packageJSON))
  /\ (forall entries c,
        exports packageJSON = Some (ExportsTable entries) ->
        selectExport entries = Some (Conditions c) ->
        truthyStr (c !! "import") = false ->
        truthyStr (c !! "require") = false ->
        truthyStr (c !! "node") = false ->
        truthyStr (c !! "default") = false ->
        resolveMain packageJSON = Return (fallbackMain packageJSON))
  /\ fallbackMain packageJSON
     = match PackageJSON.main packageJSON with
       | Some m => if String.eqb m "" then "./index.js" else m
       | None => "./index.js"
       end.
Proof.
  split; [| split; [| split]].
  - intros [He | He]; apply resolveMain_no_exports; by rewrite He.
  - intros entries He Hsel. unfold resolveMain. rewrite He. cbn. by rewrite Hsel.
  - intros entries c He Hsel Hi Hr Hn Hd.
    rewrite (resolveMain_table_nested _ _ _ He Hsel). by rewrite Hi, Hr, Hn, Hd.
  - apply fallbackMain_cases.
Qed.

Lemma entry_point_falls_back_to_main_witness :
  resolveMain typesOnly = Return "./index.js"
  /\ resolveMain emptyManifest = Return "./index.js".
Proof.
  split.
  - destruct (entry_point_falls_back_to_main typesOnly) as (_ & _ & Hnested & Hcases).
    rewrite (Hnested {[ "." := Conditions {[ "types" := "./index.d.ts" ]} ]}
               {[ "types" := "./index.d.ts" ]});
      reflexivity.
  - destruct (entry_point_falls_back_to_main emptyManifest) as (Hnone & _ & _ & Hcases).
    rewrite Hnone by (left; reflexivity). by rewrite Hcases.
Defined.

(** X12.  The engines shim writes [engines.homebridge] and nothing else:
    every other engine requirement (such as [node]) is what the manifest
    says.  It leaves [engines] alone when the manifest has a non-empty
    [engines.homebridge], so an explicit requirement is never replaced by
    the peer-dependency range, and when there are no peer dependencies. *)
Theorem engines_shim_frame (packageJSON : PackageJSON.t) :
  (truthyStr (field (PackageJSON.engines packageJSON) "homebridge") = true ->
   shimEngines packageJSON = PackageJSON.engines packageJSON)
  /\ (peerDependencies packageJSON = None ->
      shimEngines packageJSON = PackageJSON.engines packageJSON)
  /\ (forall key,
        key <> "homebridge" ->
        field (shimEngines packageJSON) key
        = field (PackageJSON.engines packageJSON) key).
Proof.
  unfold shimEngines. split; [| split].
  - intros ->. by destruct (peerDependencies packageJSON).
  - by intros ->.
  - intros key Hkey.
    destruct (peerDependencies packageJSON) as [peers |]; [| reflexivity].
    destruct (truthyStr (field (PackageJSON.engines packageJSON) "homebridge"));
      [reflexivity |].
    cbn. destruct (peers !! "homebridge").
    + rewrite lookup_insert_ne by done.
      destruct (PackageJSON.engines packageJSON); [reflexivity | apply lookup_empty].
    + rewrite lookup_delete_ne by done.
      destruct (PackageJSON.engines packageJSON); [reflexivity | apply lookup_empty].
Qed.

Lemma engines_shim_frame_witness :
  field (shimEngines dualFormat) "homebridge" = Some "^1.6.0"
  /\ field (shimEngines dualFormat) "node" = Some "^18 || ^20".
Proof.
  destruct (engines_shim_frame dualFormat) as (Hexplicit & _ & Hother).
  split.
  - rewrite Hexplicit by reflexivity. reflexivity.
  - rewrite Hother by discriminate. reflexivity.
Defined.

End Manifest.

(* ===================================================================== *)
(** ** More on the registries and on dynamic platforms                    *)
(* ===================================================================== *)

Section Lookups.

Import Plugin.

(** X13.  Registration and lookup of accessories: before a name is
    registered its lookup raises; after [registerAccessory] the lookup of
    any identifier that normalizes to the name returns the constructor
    just stored; lookups of other names are what they were. *)
Theorem accessory_lookup_after_registration (host : Host) (p : t)
    (name identifier : string) (c : AccessoryPluginConstructor) :
  getAccessoryName host identifier = name ->
  registeredAccessories p !! name = None ->
  (exists message,
     getAccessoryConstructor host identifier p = Throw (Error message))
  /\ getAccessoryConstructor host identifier (registerAccessory name c p).1.2 = Return c
  /\ (forall other,
        getAccessoryName host other <> name ->
        getAccessoryConstructor host other (registerAccessory name c p).1.2
        = getAccessoryConstructor host other p).
Proof.
  intros Hid Hfresh. rewrite (registerAccessory_fresh _ _ _ Hfresh). cbn [fst snd].
  unfold getAccessoryConstructor. rewrite Hid, Hfresh. cbn.
  split; [eauto |]. split.
  - by rewrite lookup_insert_eq.
  - intros other Hother. by rewrite lookup_insert_ne.
Qed.

Lemma accessory_lookup_after_registration_witness :
  getAccessoryConstructor sampleHost "homebridge-sample.Switch"
    (registerAccessory "Switch" (AccessoryCtor 1) bare).1.2
  = Return (AccessoryCtor 1).
Proof.
  apply (accessory_lookup_after_registration sampleHost bare "Switch"
           "homebridge-sample.Switch" (AccessoryCtor 1));
    reflexivity.
Defined.

(** X14.  Lookup of a platform constructor: an unregistered name raises
    and logs nothing.  A registered name returns its constructor, and the
    lookup logs (one line, at error level) exactly when a dynamic
    instance of that platform is already active; so after any
    [assignDynamicPlatform] for the platform the lookup still returns the
    constructor and logs that one line. *)
Theorem platform_lookup_warns_on_dynamic (host : Host) (p : t)
    (identifier : string) :
  (registeredPlatforms p !! getPlatformName host identifier = None ->
   exists message,
     getPlatformConstructor host identifier p = (Throw (Error message), []))
  /\ (forall c,
        registeredPlatforms p !! getPlatformName host identifier = Some c ->
        (getPlatformConstructor host identifier p).1 = Return c
        /\ ((getPlatformConstructor host identifier p).2 = []
            <-> activeDynamicPlatforms p !! getPlatformName host identifier = None)
        /\ (forall instance,
              exists message,
                getPlatformConstructor host identifier
                  (assignDynamicPlatform host identifier instance p)
                = (Return c, [mkLog ErrorLevel message []]))).
Proof.
  unfold getPlatformConstructor. split.
  - intros ->. eauto.
  - intros c Hc. rewrite Hc. cbn. split; [reflexivity |]. split.
    + destruct (activeDynamicPlatforms p !! getPlatformName host identifier);
        split; done.
    + intros instance. cbn. rewrite Hc, lookup_insert_eq. eauto.
Qed.

Lemma platform_lookup_warns_on_dynamic_witness :
  (getPlatformConstructor sampleHost "homebridge-sample.Hue" scoped).1
  = Return (PlatformCtor 1)
  /\ length (getPlatformConstructor sampleHost "homebridge-sample.Hue" scoped).2 = 1%nat
  /\ exists message,
       getPlatformConstructor sampleHost "Nest" scoped = (Throw (Error message), []).
Proof.
  destruct (platform_lookup_warns_on_dynamic sampleHost scoped "homebridge-sample.Hue")
    as (_ & Hfound).
  destruct (Hfound (PlatformCtor 1) eq_refl) as (Hc & _ & _).
  split; [exact Hc |]. split; [reflexivity |].
  apply (proj1 (platform_lookup_warns_on_dynamic sampleHost scoped "Nest")).
  reflexivity.
Defined.

(** X15.  A registration touches its own registry only: whatever its
    outcome, [registerAccessory] leaves every other field of the
    descriptor as it was, and so does [registerPlatform]; entries under
    other names are kept.  The two registries do not share names: a name
    free in both can be registered as an accessory and as a platform. *)
Theorem registration_frame (p : t) (name : string)
    (a : AccessoryPluginConstructor) (f : PlatformPluginConstructor) :
  (registerAccessory name a p).1.2
  = setRegisteredAccessories (registeredAccessories (registerAccessory name a p).1.2) p
  /\ (registerPlatform name f p).1.2
     = setRegisteredPlatforms (registeredPlatforms (registerPlatform name f p).1.2) p
  /\ (forall other,
        other <> name ->
        registeredAccessories (registerAccessory name a p).1.2 !! other
        = registeredAccessories p !! other
        /\ registeredPlatforms (registerPlatform name f p).1.2 !! other
           = registeredPlatforms p !! other)
  /\ (registeredAccessories p !! name = None ->
      registeredPlatforms p !! name = None ->
      (registerPlatform name f (registerAccessory name a p).1.2).1.1 = Return tt
      /\ (registerAccessory name a (registerPlatform name f p).1.2).1.1 = Return tt).
Proof.
  unfold registerAccessory, registerPlatform.
  destruct p as [pn sc pp esm dis ver mn lc ini ra rp dp]. cbn.
  destruct (ra !! name) eqn:Ha; destruct (rp !! name) eqn:Hp; cbn;
    (split; [reflexivity |]); (split; [reflexivity |]);
    (split; [intros other Hother; rewrite ?lookup_insert_ne by done; by split |]);
    try discriminate.
  intros _ _. by rewrite Ha, Hp.
Qed.

Lemma registration_frame_witness :
  (registerPlatform "Switch" (PlatformCtor 2)
     (registerAccessory "Switch" (AccessoryCtor 1) bare).1.2).1.1 = Return tt.
Proof.
  apply (proj2 (proj2 (proj2 (registration_frame bare "Switch" (AccessoryCtor 1)
                                (PlatformCtor 2))))); reflexivity.
Defined.

Lemma assignAll_app (host : Host) (first second : list (string * DynamicPlatformPlugin))
    (p : t) :
  assignAll host (first ++ second) p = assignAll host second (assignAll host first p).
Proof.
  revert p. induction first as [| [identifier instance] first IH]; intros p;
    [reflexivity |].
  cbn. apply IH.
Qed.

(** The list of a platform after a run of assignments: the instances it
    was handed, newest first, in front of what was there. *)
Lemma assignAll_lookup (host : Host) (calls : list (string * DynamicPlatformPlugin))
    (p : t) (P : string) :
  default [] (activeDynamicPlatforms (assignAll host calls p) !! P)
  = (rev (instancesFor host P calls)
       ++ default [] (activeDynamicPlatforms p !! P))%list.
Proof.
  revert p. induction calls as [| [identifier instance] calls IH]; intros p;
    [reflexivity |].
  cbn [assignAll]. rewrite IH, assignDynamicPlatform_lookup.
  unfold instancesFor. simpl.
  destruct (decide (getPlatformName host identifier = P)); simpl.
  - by rewrite <- app_assoc.
  - reflexivity.
Qed.

Lemma instancesFor_nonempty (host : Host) (P : string)
    (calls : list (string * DynamicPlatformPlugin)) :
  Exists (fun call => getPlatformName host call.1 = P) calls ->
  instancesFor host P calls <> [].
Proof.
  unfold instancesFor.
  induction 1 as [[identifier instance] calls Hhere | [identifier instance] calls _ IH];
    simpl in *.
  - by destruct (decide (getPlatformName host identifier = P)).
  - destruct (decide (getPlatformName host identifier = P)); [done | exact IH].
Qed.

Lemma assignAll_keeps (host : Host) (calls : list (string * DynamicPlatformPlugin))
    (p : t) (P : string) :
  is_Some (activeDynamicPlatforms p !! P) ->
  is_Some (activeDynamicPlatforms (assignAll host calls p) !! P).
Proof.
  revert p. induction calls as [| [identifier instance] calls IH]; intros p Hp;
    [exact Hp |].
  cbn [assignAll]. apply IH. rewrite assignDynamicPlatform_lookup.
  case_decide; eauto.
Qed.

(** X16.  Last published wins, in general: after any sequence of
    assignments, the active instance of a platform is the one handed over
    by the last call that normalizes to its name, however many calls for
    other platforms follow; and the platform's list holds every instance
    it was handed, newest first, followed by what it held before. *)
Theorem last_assignment_wins (host : Host) (p : t) (P identifier : string)
    (instance : DynamicPlatformPlugin)
    (before after : list (string * DynamicPlatformPlugin)) :
  getPlatformName host identifier = P ->
  Forall (fun call => getPlatformName host call.1 <> P) after ->
  getActiveDynamicPlatform P
    (assignAll host (before ++ (identifier, instance) :: after) p) = Some instance
  /\ activeDynamicPlatforms
       (assignAll host (before ++ (identifier, instance) :: after) p) !! P
     = Some (instance :: rev (instancesFor host P before)
               ++ default [] (activeDynamicPlatforms p !! P))%list.
Proof.
  intros HP Hafter.
  assert (Hlist : activeDynamicPlatforms
                    (assignAll host (before ++ (identifier, instance) :: after) p) !! P
                  = Some (instance :: rev (instancesFor host P before)
                            ++ default [] (activeDynamicPlatforms p !! P))%list).
  { rewrite assignAll_app. cbn [assignAll].
    rewrite (assignAll_other _ _ _ _ Hafter), assignDynamicPlatform_lookup.
    case_decide; [| done]. by rewrite assignAll_lookup. }
  split; [| exact Hlist].
  unfold getActiveDynamicPlatform. by rewrite Hlist.
Qed.

Lemma last_assignment_wins_witness :
  getActiveDynamicPlatform "Hue"
    (assignAll sampleHost
       [("Hue", DynamicPlatform 2); ("homebridge-sample.Hue", DynamicPlatform 3);
        ("Nest", DynamicPlatform 4)] scoped)
  = Some (DynamicPlatform 3)
  /\ activeDynamicPlatforms
       (assignAll sampleHost
          [("Hue", DynamicPlatform 2); ("homebridge-sample.Hue", DynamicPlatform 3);
           ("Nest", DynamicPlatform 4)] scoped) !! "Hue"
     = Some [DynamicPlatform 3; DynamicPlatform 2; DynamicPlatform 1].
Proof.
  apply (last_assignment_wins sampleHost scoped "Hue" "homebridge-sample.Hue"
           (DynamicPlatform 3) [("Hue", DynamicPlatform 2)]
           [("Nest", DynamicPlatform 4)]);
    [reflexivity | repeat constructor; discriminate].
Defined.

(** X17.  Assignments never remove: a platform that has a list keeps
    one, and its old list stays at the tail of the new one.  On a
    descriptor fresh from the constructor a platform has an active
    instance exactly when some assignment normalized to its name. *)
Theorem assignments_never_remove (host : Host) (p : t) (P : string)
    (calls : list (string * DynamicPlatformPlugin)) :
  (is_Some (activeDynamicPlatforms p !! P) ->
   is_Some (activeDynamicPlatforms (assignAll host calls p) !! P))
  /\ (exists newer,
        default [] (activeDynamicPlatforms (assignAll host calls p) !! P)
        = (newer ++ default [] (activeDynamicPlatforms p !! P))%list)
  /\ (forall name path packageJSON scope,
        constructor name path packageJSON scope = Return p ->
        (is_Some (getActiveDynamicPlatform P (assignAll host calls p))
         <-> Exists (fun call => getPlatformName host call.1 = P) calls)).
Proof.
  split; [apply assignAll_keeps |].
  split; [eexists; apply assignAll_lookup |].
  intros name path packageJSON scope Hnew.
  destruct (constructor_fields _ _ _ _ _ Hnew) as (_ & _ & _ & _ & _ & Hempty).
  unfold getActiveDynamicPlatform. split.
  - intros Hactive.
    destruct (decide (Exists (fun call => getPlatformName host call.1 = P) calls))
      as [Hex | Hnone]; [exact Hex | exfalso].
    apply not_Exists_Forall in Hnone; [| intros call; apply _].
    rewrite (assignAll_other _ _ _ _ Hnone), Hempty, lookup_empty in Hactive.
    by destruct Hactive.
  - intros Hex. pose proof (assignAll_lookup host calls p P) as Hlist.
    rewrite Hempty, lookup_empty, app_nil_r in Hlist. cbn in Hlist.
    pose proof (instancesFor_nonempty _ _ _ Hex) as Hne.
    destruct (activeDynamicPlatforms (assignAll host calls p) !! P) as [[| x l] |];
      cbn in Hlist; [| eauto |].
    + destruct (instancesFor host P calls) as [| y ys]; [done |].
      cbn in Hlist. by destruct (rev ys).
    + destruct (instancesFor host P calls) as [| y ys]; [done |].
      cbn in Hlist. by destruct (rev ys).
Qed.

Lemma assignments_never_remove_witness :
  is_Some (getActiveDynamicPlatform "Nest"
             (assignAll sampleHost [("Hue", DynamicPlatform 2);
                                    ("homebridge-sample.Nest", DynamicPlatform 4)] bare))
  /\ is_Some (activeDynamicPlatforms
                (assignAll sampleHost [("Nest", DynamicPlatform 4)] scoped) !! "Hue").
Proof.
  destruct (assignments_never_remove sampleHost bare "Nest"
              [("Hue", DynamicPlatform 2); ("homebridge-sample.Nest", DynamicPlatform 4)])
    as (_ & _ & Hiff).
  split.
  - apply (Hiff "homebridge-sample" "/plugins/homebridge-sample" emptyManifest None
             eq_refl).
    right. left. reflexivity.
  - apply (proj1 (assignments_never_remove sampleHost scoped "Hue"
                    [("Nest", DynamicPlatform 4)])).
    eexists. reflexivity.
Defined.

(** X23.  The [disabled] flag silences a registration and does nothing
    else: on a disabled descriptor [registerAccessory] and
    [registerPlatform] log nothing, and their outcome and the registry
    they leave are those of the same call on the enabled descriptor. *)
Theorem disabled_only_silences (p : t) (b : bool) (name : string)
    (a : AccessoryPluginConstructor) (f : PlatformPluginConstructor) :
  (registerAccessory name a (setDisabled b p)).1.1 = (registerAccessory name a p).1.1
  /\ (registerAccessory name a (setDisabled b p)).1.2
     = setDisabled b (registerAccessory name a p).1.2
  /\ (registerPlatform name f (setDisabled b p)).1.1 = (registerPlatform name f p).1.1
  /\ (registerPlatform name f (setDisabled b p)).1.2
     = setDisabled b (registerPlatform name f p).1.2
  /\ (registerAccessory name a (setDisabled true p)).2 = []
  /\ (registerPlatform name f (setDisabled true p)).2 = []
  /\ (registeredAccessories p !! name = None ->
      length (registerAccessory name a (setDisabled false p)).2 = 1%nat)
  /\ (registeredPlatforms p !! name = None ->
      length (registerPlatform name f (setDisabled false p)).2 = 1%nat).
Proof.
  unfold registerAccessory, registerPlatform. cbn.
  destruct (registeredAccessories p !! name), (registeredPlatforms p !! name);
    repeat split; discriminate.
Qed.

Lemma disabled_only_silences_witness :
  length (registerAccessory "Switch" (AccessoryCtor 1) (setDisabled false bare)).2 = 1%nat
  /\ (registerAccessory "Switch" (AccessoryCtor 1) (setDisabled true bare)).2 = [].
Proof.
  destruct (disabled_only_silences bare true "Switch" (AccessoryCtor 1) (PlatformCtor 1))
    as (_ & _ & _ & _ & Hquiet & _ & Hloud & _).
  split; [apply Hloud; reflexivity | exact Hquiet].
Defined.

End Lookups.

(* ===================================================================== *)
(** ** More on loading                                                    *)
(* ===================================================================== *)

Section LoadBehaviour.

Import Plugin.

Example dual_constructed :
  constructor "homebridge-sample" "/plugins/homebridge-sample" dualFormat None
  = Return dual.
Proof. vm_compute. reflexivity. Qed.

(** Where [load] stands when it is about to request the module, apart
    from what it logged. *)
Lemma loadGate_outcome (host : Host) (p : t) :
  (loadGate host p).1 =
  match loadContext p with
  | None => (Throw illegalState, p)
  | Some context =>
      if truthyStr (field (LoadContext.engines context) "homebridge") then
        (Return (if isESM p
                 then DynamicImport
                        (pathToFileURL host (pathJoin host (pluginPath p) (main p)))
                 else Require (pathJoin host (pluginPath p) (main p))),
         setLoadContext None p)
      else (Throw (enginesMissing p), setLoadContext None p)
  end.
Proof.
  unfold loadGate. destruct (loadContext p) as [context |]; [| reflexivity].
  destruct (LoadContext.engines context) as [engines |]; [| reflexivity].
  cbn. by destruct (truthyStr (engines !! "homebridge")).
Qed.

(** A gate that fails has logged nothing. *)
Lemma loadGate_failure_is_silent (host : Host) (p : t) e :
  (loadGate host p).1.1 = Throw e -> (loadGate host p).2 = [].
Proof.
  unfold loadGate. destruct (loadContext p) as [context |]; [| reflexivity].
  destruct (LoadContext.engines context) as [engines |]; [| reflexivity].
  by destruct (truthyStr (engines !! "homebridge")).
Qed.

(** X18.  The version checks and the bundled-dependency check never
    decide a load: whether [load] gets to request the module, which
    module it requests and the state it is in are the same on two hosts
    that differ in their versions and in what [satisfies] answers, and
    the same whatever the manifest lists under [dependencies]. *)
Theorem version_checks_never_block (host host' : Host) (p : t) :
  pathJoin host = pathJoin host' ->
  pathToFileURL host = pathToFileURL host' ->
  (loadGate host p).1 = (loadGate host' p).1
  /\ (forall context dependencies,
        loadContext p = Some context ->
        (loadGate host
           (setLoadContext
              (Some (LoadContext.mk (LoadContext.engines context) dependencies)) p)).1
        = (loadGate host p).1).
Proof.
  intros Hjoin Hurl. split.
  - rewrite !loadGate_outcome, Hjoin, Hurl. reflexivity.
  - intros context dependencies Hc. rewrite !loadGate_outcome, Hc. reflexivity.
Qed.

Lemma version_checks_never_block_witness :
  (loadGate strictHost dual).1 = (loadGate sampleHost dual).1
  /\ (loadGate sampleHost dual).1.1
     = Return (DynamicImport "file:///plugins/homebridge-sample/./dist/index.mjs")
  /\ length (loadGate strictHost dual).2 = 3%nat.
Proof.
  split; [| split; reflexivity].
  apply (version_checks_never_block strictHost sampleHost dual); reflexivity.
Defined.

(** X19.  When the fatal check passes, [load] logs at most three lines,
    and none at all exactly when the host version satisfies the required
    range, the Node version satisfies [engines.node] if there is one, and
    [dependencies] lists neither homebridge nor hap-nodejs. *)
Theorem load_is_silent_iff (host : Host) (p : t) (context : LoadContext.t)
    (range : string) :
  loadContext p = Some context ->
  field (LoadContext.engines context) "homebridge" = Some range ->
  range <> "" ->
  (length (loadGate host p).2 <= 3)%nat
  /\ ((loadGate host p).2 = []
      <-> satisfies host (getVersion host) range true = true
          /\ (truthyStr (field (LoadContext.engines context) "node") = true ->
              satisfies host (processVersion host)
                (default "" (field (LoadContext.engines context) "node")) false = true)
          /\ truthyStr (field (LoadContext.dependencies context) "homebridge") = false
          /\ truthyStr (field (LoadContext.dependencies context) "hap-nodejs") = false).
Proof.
  intros Hc He Hr. unfold loadGate. rewrite Hc.
  destruct context as [[engines |] dependencies]; [| discriminate He].
  cbn in He. cbn [LoadContext.engines LoadContext.dependencies field].
  rewrite He. cbn [truthyStr default].
  destruct (String.eqb_spec range ""); [done |]. cbn [negb snd].
  assert (Hdeps : forall key,
            default ∅ dependencies !! key = field dependencies key)
    by (intros key; destruct dependencies; [reflexivity | apply lookup_empty]).
  rewrite !Hdeps. change (id range) with range.
  destruct (satisfies host (getVersion host) range true);
    destruct (truthyStr (engines !! "node"));
    destruct (satisfies host (processVersion host) (default "" (engines !! "node")) false);
    destruct (truthyStr (field dependencies "homebridge"));
    destruct (truthyStr (field dependencies "hap-nodejs"));
    cbn; (split; [lia |]); split; try discriminate; intuition discriminate.
Qed.

Lemma load_is_silent_iff_witness :
  (loadGate sampleHost dual).2 = [bundledCopy dual]
  /\ (loadGate sampleHost
        (setLoadContext
           (Some (LoadContext.mk (Some {[ "homebridge" := "^1.6.0" ]}) None)) dual)).2
     = [].
Proof.
  split; [reflexivity |].
  apply (load_is_silent_iff sampleHost
           (setLoadContext
              (Some (LoadContext.mk (Some {[ "homebridge" := "^1.6.0" ]}) None)) dual)
           (LoadContext.mk (Some {[ "homebridge" := "^1.6.0" ]}) None) "^1.6.0");
    [reflexivity | reflexivity | discriminate |].
  repeat split; try reflexivity.
Defined.

(** X20.  What a [load] does to the outside: either it fails at the
    state assertion or at the engines check, having logged nothing and
    imported nothing; or it logs its warnings and then requests exactly
    one module, the file [main] under the plugin path, by dynamic import
    of its file URL for an ES module and by [require] otherwise.  Nothing
    is logged after the request. *)
Theorem load_imports_at_most_once (host : Host) (p : t) :
  ((load host p).2 = []
   /\ ((load host p).1.1 = Throw illegalState
       \/ (load host p).1.1 = Throw (enginesMissing p)))
  \/ (exists logs,
        (load host p).2
        = ((Logged <$> logs)
             ++ [Imported
                   (if isESM p
                    then DynamicImport
                           (pathToFileURL host (pathJoin host (pluginPath p) (main p)))
                    else Require (pathJoin host (pluginPath p) (main p)))])%list).
Proof.
  pose proof (loadGate_outcome host p) as Hout.
  pose proof (loadGate_failure_is_silent host p) as Hsilent.
  destruct (loadGate host p) as [[[request | e] p1] logs] eqn:Hg; cbn in *.
  - right. exists logs. rewrite (load_gate_passed _ _ _ _ _ Hg).
    assert (request = if isESM p
                      then DynamicImport
                             (pathToFileURL host (pathJoin host (pluginPath p) (main p)))
                      else Require (pathJoin host (pluginPath p) (main p))) as <-.
    { destruct (loadContext p) as [context |]; [| discriminate Hout].
      destruct (truthyStr _); [| discriminate Hout]. by injection Hout as ->. }
    by destruct (loadModule host request).
  - left. rewrite (load_gate_failed _ _ _ _ _ Hg). cbn.
    rewrite (Hsilent e eq_refl). split; [reflexivity |].
    destruct (loadContext p) as [context |]; [| left; by injection Hout as -> _].
    destruct (truthyStr _); [discriminate Hout |]. right. by injection Hout as -> _.
Qed.

(** X21.  [load] succeeds exactly when the descriptor still has its load
    context, that context has a non-empty [engines.homebridge], and the
    requested module is a function or an object whose [default] is a
    function. *)
Theorem load_succeeds_iff (host : Host) (p : t) :
  (load host p).1.1 = Return tt
  <-> exists context range f,
        loadContext p = Some context
        /\ field (LoadContext.engines context) "homebridge" = Some range
        /\ range <> ""
        /\ (let request :=
              if isESM p
              then DynamicImport
                     (pathToFileURL host (pathJoin host (pluginPath p) (main p)))
              else Require (pathJoin host (pluginPath p) (main p)) in
            loadModule host request = Return (ModuleFunction f)
            \/ loadModule host request = Return (ModuleObject (Some f))).
Proof.
  pose proof (loadGate_outcome host p) as Hout.
  destruct (loadGate host p) as [[[request | e] p1] logs] eqn:Hg; cbn in Hout.
  - rewrite (load_gate_passed _ _ _ _ _ Hg).
    destruct (loadContext p) as [context |]; [| discriminate Hout].
    destruct (truthyStr (field (LoadContext.engines context) "homebridge")) eqn:Ht;
      [| discriminate Hout].
    injection Hout as -> _.
    destruct (field (LoadContext.engines context) "homebridge") as [range |] eqn:Hr;
      [| discriminate Ht].
    assert (Hne : range <> "")
      by (cbn in Ht; by destruct (String.eqb_spec range "")).
    split.
    + intros Hok. exists context, range.
      destruct (loadModule host _) as [[f | [f |] |] | e] eqn:Hm; cbn in Hok;
        try discriminate Hok; exists f; (split; [reflexivity |]);
        (split; [exact Hr |]); (split; [exact Hne |]); cbn; auto.
    + intros (context' & range' & f & _ & _ & _ & [Hf | Hf]); cbn in Hf;
        by rewrite Hf.
  - rewrite (load_gate_failed _ _ _ _ _ Hg). cbn. split; [discriminate |].
    intros (context & range & f & Hc & Hr & Hne & _). rewrite Hc, Hr in Hout.
    cbn in Hout. destruct (String.eqb_spec range ""); [done | discriminate Hout].
Qed.

(** X22.  [load] changes two fields of the descriptor and no other: the
    load context and the stored initializer.  Name, scope, path, entry
    point, module format, version, the disabled flag, both registries
    and the dynamic platforms are what they were, whether it succeeds or
    fails. *)
Theorem load_frame (host : Host) (p : t) :
  setPluginInitializer (pluginInitializer p)
    (setLoadContext (loadContext p) (load host p).1.2) = p.
Proof.
  pose proof (loadGate_outcome host p) as Hout.
  destruct (loadGate host p) as [[[request | e] p1] logs] eqn:Hg; cbn in Hout.
  - rewrite (load_gate_passed _ _ _ _ _ Hg).
    assert (Hp1 : p1 = setLoadContext None p).
    { destruct (loadContext p); [| discriminate Hout].
      destruct (truthyStr _); [| discriminate Hout].
      injection Hout as _ Hp1. exact Hp1. }
    subst p1. clear Hout Hg.
    destruct (loadModule host request) as [[f | [f |] |] | e]; cbn;
      by destruct p.
  - rewrite (load_gate_failed _ _ _ _ _ Hg). cbn. clear Hg.
    destruct (loadContext p) eqn:Hc.
    + destruct (truthyStr _); [discriminate Hout |]. injection Hout as _ ->.
      destruct p; cbn in *; by subst.
    + injection Hout as _ ->. destruct p; cbn in *; by subst.
Qed.

Lemma load_succeeds_iff_witness :
  (load sampleHost dual).1.1 = Return tt
  /\ (load strictHost dual).1.1 = Throw (noInitializer dual).
Proof.
  split; [| reflexivity].
  apply (load_succeeds_iff sampleHost dual).
  exists (LoadContext.mk (Some {[ "homebridge" := "^1.6.0"; "node" := "^18 || ^20" ]})
                         (Some {[ "hap-nodejs" := "^0.11.0" ]})),
         "^1.6.0", (Initializer 0).
  split; [reflexivity |]. split; [reflexivity |]. split; [discriminate |].
  left. reflexivity.
Defined.

End LoadBehaviour.
